(** * Lifting diary: the workout data model, its access layer and its actions

    A shallow embedding of the TypeScript sources

    - [db/schema.ts], the four tables and their referential actions;
    - [src/data/workouts.ts], the helpers that take the owner as an argument;
    - [data/workouts.ts], the helpers that resolve the owner with [auth()];
    - the actions of the new-workout page, [createWorkoutAction] and its
      Zod schema;
    - [app/dashboard/workout/[workoutId]/actions.ts], [updateWorkoutAction];
    - [components/dashboard/workouts-list.tsx], the card title of a workout;

    followed by the properties of the specification, proved or refuted on
    these definitions.

    Conventions.  A valid JS [Date] is its number of milliseconds since the
    epoch, a [Z]; local time is UTC plus a fixed offset.  A table is the
    list of its rows.  An [async] function is a
    function from the world before the call to its outcome and the world
    after it; a rejected promise is the outcome [Thrown].  The length of a
    string is [String.length] on both sides of the wire. *)

From Stdlib Require Import ZArith List String Ascii Bool Lia.
From Stdlib Require Import Permutation Sorted.
From Stdlib Require Import DecimalString.
Import ListNotations.

Local Open Scope Z_scope.

(** ** JavaScript values *)

Definition Date := Z.

(** [!s] for a [string | null | undefined]: absent and empty are both falsy. *)
Definition falsy (s : option string) : bool :=
  match s with
  | None => true
  | Some v => String.eqb v ""
  end.

(** [a || b] on strings where [a] may be absent. *)
Definition or_else (a : option string) (b : string) : string :=
  if falsy a then b else match a with Some v => v | None => b end.

(** What a [throw] carries below the actions: an [Error] object with its
    message (driver errors are such objects), or any other value. *)
Inductive JsThrown : Type :=
| ErrorObj (message : string)
| NonError (value : string).

Inductive Outcome (E A : Type) : Type :=
| Returned (a : A)
| Thrown (e : E).
Arguments Returned {E A} a.
Arguments Thrown {E A} e.

(** ** db/schema.ts *)

Module Exercise.
Record t : Type := mk
  { id : Z; name : string; createdAt : Date; updatedAt : Date }.
End Exercise.

Module Workout.
Record t : Type := mk
  { id : Z;
    userId : string;
    name : option string;
    startedAt : Date;
    completedAt : option Date;
    createdAt : Date;
    updatedAt : Date }.
End Workout.

Module WorkoutExercise.
Record t : Type := mk
  { id : Z; workoutId : Z; exerciseId : Z; order : Z; createdAt : Date }.
End WorkoutExercise.

(** The [sets] table; [weight] is numeric(10,2), kept in hundredths. *)
Module SetRow.
Record t : Type := mk
  { id : Z; workoutExerciseId : Z; setNumber : Z; weight : Z; reps : Z;
    createdAt : Date }.
End SetRow.

Record Db : Type := mkDb
  { exercises : list Exercise.t;
    workouts : list Workout.t;
    workoutExercises : list WorkoutExercise.t;
    sets : list SetRow.t;
    workouts_id_seq : Z }.

(** [varchar(255)] on [user_id] and [name]. *)
Definition varchar255 (s : string) : bool :=
  Nat.leb (String.length s) 255.

Definition workout_row_fits (r : Workout.t) : bool :=
  varchar255 (Workout.userId r)
  && match Workout.name r with Some n => varchar255 n | None => true end.

(** The primary key of [workouts], and the serial that feeds it. *)
Definition pk_unique (d : Db) : Prop :=
  NoDup (map Workout.id (workouts d)).

Definition seq_fresh (d : Db) : Prop :=
  Forall (fun r => Workout.id r < workouts_id_seq d) (workouts d).

(** Tables [d'] that differ from [d] in [workouts] at most. *)
Definition same_children (d d' : Db) : Prop :=
  exercises d' = exercises d
  /\ workoutExercises d' = workoutExercises d
  /\ sets d' = sets d.

(** The rows and the names that the [varchar(255)] columns admit. *)
Definition rows_fit (d : Db) : Prop :=
  Forall (fun r => workout_row_fits r = true) (workouts d).

Definition name_fits (n : option string) : Prop :=
  forall s, n = Some s -> varchar255 s = true.

(** ** The world of one request *)

Record World : Type := mkWorld
  { authUserId : option string;          (* what [auth()] resolves *)
    db : Db;
    clock : Date;                        (* [new Date()] and [now()] *)
    tz : Z;                              (* local time minus UTC, in ms *)
    faults : list (option JsThrown);     (* fate of the coming round trips *)
    console : list (string * JsThrown);  (* [console.error] *)
    revalidated : list string }.         (* [revalidatePath] *)

Definition with_db (w : World) (d : Db) : World :=
  mkWorld (authUserId w) d (clock w) (tz w) (faults w) (console w) (revalidated w).

Definition with_faults (w : World) (f : list (option JsThrown)) : World :=
  mkWorld (authUserId w) (db w) (clock w) (tz w) f (console w) (revalidated w).

Definition M (E A : Type) : Type := World -> Outcome E A * World.

Definition ret {E A} (a : A) : M E A := fun w => (Returned a, w).

Definition throw {E A} (e : E) : M E A := fun w => (Thrown e, w).

Definition bind {E A B} (m : M E A) (k : A -> M E B) : M E B :=
  fun w =>
    match m w with
    | (Returned a, w') => k a w'
    | (Thrown e, w') => (Thrown e, w')
    end.

Definition try_catch {E E' A} (m : M E A) (h : E -> M E' A) : M E' A :=
  fun w =>
    match m w with
    | (Returned a, w') => (Returned a, w')
    | (Thrown e, w') => h e w'
    end.

Notation "x <- m ;; k" := (bind m (fun x => k))
  (at level 61, m at next level, right associativity).
Notation "m ;;; k" := (bind m (fun _ => k))
  (at level 61, right associativity).

Definition auth {E} : M E (option string) :=
  fun w => (Returned (authUserId w), w).

Definition new_Date {E} : M E Date :=
  fun w => (Returned (clock w), w).

Definition console_error {E} (label : string) (e : JsThrown) : M E unit :=
  fun w =>
    (Returned tt,
     mkWorld (authUserId w) (db w) (clock w) (tz w) (faults w)
             (console w ++ [(label, e)]) (revalidated w)).

Definition revalidatePath {E} (path : string) : M E unit :=
  fun w =>
    (Returned tt,
     mkWorld (authUserId w) (db w) (clock w) (tz w) (faults w)
             (console w) (revalidated w ++ [path])).

(** One round trip to the store.  The head of [faults] is its fate: the
    round trip fails with what it holds (connection lost, ...), or the
    statement [q] is run on the tables at the time [now()] and either yields
    a value and the new tables or raises (a violated constraint). *)
Definition storage {A} (q : Date -> Db -> Outcome JsThrown (A * Db))
  : M JsThrown A :=
  fun w =>
    let w0 := with_faults w (tl (faults w)) in
    match hd None (faults w) with
    | Some f => (Thrown f, w0)
    | None =>
        match q (clock w) (db w) with
        | Returned (a, d) => (Returned a, with_db w0 d)
        | Thrown e => (Thrown e, w0)
        end
    end.

(** ** ORDER BY *)

Fixpoint insert_by {A} (le : A -> A -> bool) (x : A) (l : list A) : list A :=
  match l with
  | [] => [x]
  | y :: t => if le x y then x :: l else y :: insert_by le x t
  end.

Fixpoint order_by {A} (le : A -> A -> bool) (l : list A) : list A :=
  match l with
  | [] => []
  | x :: t => insert_by le x (order_by le t)
  end.

Definition asc {A} (key : A -> Z) : A -> A -> bool :=
  fun a b => key a <=? key b.

Definition desc {A} (key : A -> Z) : A -> A -> bool :=
  fun a b => key b <=? key a.

(** What the two orders promise of a row [a] that comes before a row [b]. *)
Definition ascending {A} (key : A -> Z) (a b : A) : Prop := key a <= key b.

Definition descending {A} (key : A -> Z) (a b : A) : Prop := key b <= key a.

(** ** Statements on [workouts] *)

(** [const [row] = await ...]: the first row, or [undefined]. *)
Definition first {A} (rows : list A) : option A :=
  match rows with
  | [] => None
  | r :: _ => Some r
  end.

Definition too_long : JsThrown :=
  ErrorObj "value too long for type character varying(255)".

(** INSERT ... RETURNING with the column defaults of the schema: [id] from
    the serial, [completed_at] null, [created_at] and [updated_at] both
    [now()].  The serial is taken to be ahead of every id in the table
    ([seq_fresh], which every write path keeps), so the primary key never
    refuses the row; what is proved about a successful insert assumes it. *)
Definition insert_workout (userId : string) (name : option string)
  (startedAt : Date) (now : Date) (d : Db)
  : Outcome JsThrown (list Workout.t * Db) :=
  let r := Workout.mk (workouts_id_seq d) userId name startedAt None now now in
  if workout_row_fits r then
    Returned ([r],
              mkDb (exercises d) (workouts d ++ [r]) (workoutExercises d)
                   (sets d) (workouts_id_seq d + 1))
  else Thrown too_long.

(** SELECT ... WHERE. *)
Definition select_workouts (p : Workout.t -> bool) (d : Db)
  : list Workout.t :=
  filter p (workouts d).

(** UPDATE ... SET ... WHERE ... RETURNING. *)
Definition update_workouts (p : Workout.t -> bool)
  (set : Workout.t -> Workout.t) (d : Db)
  : Outcome JsThrown (list Workout.t * Db) :=
  let rows := map (fun r => if p r then set r else r) (workouts d) in
  let hit := map set (filter p (workouts d)) in
  if forallb workout_row_fits hit then
    Returned (hit,
              mkDb (exercises d) rows (workoutExercises d) (sets d)
                   (workouts_id_seq d))
  else Thrown too_long.

Definition mem (x : Z) (l : list Z) : bool :=
  existsb (Z.eqb x) l.

(** DELETE ... WHERE ... RETURNING, followed by the referential actions of
    the schema: [workout_exercises.workout_id] and
    [sets.workout_exercise_id] are both declared [onDelete: 'cascade']. *)
Definition delete_workouts (p : Workout.t -> bool) (d : Db)
  : list Workout.t * Db :=
  let gone := filter p (workouts d) in
  let gone_ids := map Workout.id gone in
  let gone_we :=
    filter (fun e => mem (WorkoutExercise.workoutId e) gone_ids)
           (workoutExercises d) in
  let gone_we_ids := map WorkoutExercise.id gone_we in
  (gone,
   mkDb (exercises d)
        (filter (fun r => negb (p r)) (workouts d))
        (filter (fun e => negb (mem (WorkoutExercise.workoutId e) gone_ids))
                (workoutExercises d))
        (filter (fun s => negb (mem (SetRow.workoutExerciseId s) gone_we_ids))
                (sets d))
        (workouts_id_seq d)).

(** ** src/data/workouts.ts *)

Module SrcData.

Record CreateWorkoutData : Type := mkCreate
  { c_userId : string; c_name : option string; c_startedAt : Date }.

(** Absent keys of the object spread are left out of SET. *)
Record UpdateWorkoutData : Type := mkUpdate
  { u_name : option string; u_completedAt : option Date }.

Definition owned (id : Z) (userId : string) (r : Workout.t) : bool :=
  (Workout.id r =? id) && String.eqb (Workout.userId r) userId.

Definition createWorkout (data : CreateWorkoutData)
  : M JsThrown (option Workout.t) :=
  rows <- storage (insert_workout (c_userId data) (c_name data)
                                  (c_startedAt data)) ;;
  ret (first rows).

Definition apply_update (data : UpdateWorkoutData) (now : Date)
  (r : Workout.t) : Workout.t :=
  Workout.mk (Workout.id r) (Workout.userId r)
    (match u_name data with Some n => Some n | None => Workout.name r end)
    (Workout.startedAt r)
    (match u_completedAt data with
     | Some c => Some c
     | None => Workout.completedAt r
     end)
    (Workout.createdAt r)
    now.

Definition updateWorkout (id : Z) (userId : string)
  (data : UpdateWorkoutData) : M JsThrown (option Workout.t) :=
  now <- new_Date ;;
  rows <- storage (fun _ => update_workouts (owned id userId)
                                            (apply_update data now)) ;;
  ret (first rows).

Definition deleteWorkout (id : Z) (userId : string)
  : M JsThrown (option Workout.t) :=
  rows <- storage (fun _ d => Returned (delete_workouts (owned id userId) d)) ;;
  ret (first rows).

Definition getUserWorkouts (userId : string) : M JsThrown (list Workout.t) :=
  storage (fun _ d =>
    Returned (order_by (desc Workout.startedAt)
                (select_workouts
                   (fun r => String.eqb (Workout.userId r) userId) d),
              d)).

Definition getWorkout (id : Z) (userId : string)
  : M JsThrown (option Workout.t) :=
  rows <- storage (fun _ d =>
            Returned (firstn 1 (select_workouts (owned id userId) d), d)) ;;
  ret (first rows).

End SrcData.

(** ** data/workouts.ts *)

Module Data.

(** The rows that [findMany]/[findFirst] return under [with:]. *)
Record WorkoutExerciseWith : Type := mkWE
  { we_row : WorkoutExercise.t;
    we_exercise : option Exercise.t;
    we_sets : list SetRow.t }.

Record WorkoutWith : Type := mkW
  { w_row : Workout.t;
    w_workoutExercises : list WorkoutExerciseWith }.

Definition with_exercise_and_sets (d : Db) (e : WorkoutExercise.t)
  : WorkoutExerciseWith :=
  mkWE e
    (find (fun x => Exercise.id x =? WorkoutExercise.exerciseId e)
          (exercises d))
    (order_by (asc SetRow.setNumber)
       (filter (fun s => SetRow.workoutExerciseId s =? WorkoutExercise.id e)
               (sets d))).

Definition with_workoutExercises (d : Db) (r : Workout.t) : WorkoutWith :=
  mkW r
    (map (with_exercise_and_sets d)
       (order_by (asc WorkoutExercise.order)
          (filter (fun e => WorkoutExercise.workoutId e =? Workout.id r)
                  (workoutExercises d)))).

Definition msPerDay : Z := 86400000.

(** [d.setHours(h, m, s, ms)] in a zone whose offset from UTC is [zone]. *)
Definition setHours (zone : Z) (d : Date) (h m s ms : Z) : Date :=
  let local := d + zone in
  let midnight := local - local mod msPerDay in
  midnight + h * 3600000 + m * 60000 + s * 1000 + ms - zone.

Definition unauthorized : JsThrown := ErrorObj "Unauthorized".

Definition on_day (userId : string) (startOfDay endOfDay : Date)
  (r : Workout.t) : bool :=
  String.eqb (Workout.userId r) userId
  && (startOfDay <=? Workout.startedAt r)
  && (Workout.startedAt r <? endOfDay).

Definition getUserWorkoutsByDate (date : Date)
  : M JsThrown (list WorkoutWith) :=
  userId <- auth ;;
  if falsy userId then throw unauthorized else
  fun w =>
    let startOfDay := setHours (tz w) date 0 0 0 0 in
    let endOfDay := setHours (tz w) date 23 59 59 999 in
    storage (fun _ d =>
      Returned (map (with_workoutExercises d)
                  (order_by (desc Workout.startedAt)
                     (select_workouts
                        (on_day (or_else userId "") startOfDay endOfDay) d)),
                d)) w.

Definition getUserWorkouts : M JsThrown (list WorkoutWith) :=
  userId <- auth ;;
  if falsy userId then throw unauthorized else
  storage (fun _ d =>
    Returned (map (with_workoutExercises d)
                (order_by (desc Workout.startedAt)
                   (select_workouts
                      (fun r => String.eqb (Workout.userId r)
                                           (or_else userId "")) d)),
              d)).

Definition getUserWorkoutById (workoutId : Z)
  : M JsThrown (option WorkoutWith) :=
  userId <- auth ;;
  if falsy userId then throw unauthorized else
  storage (fun _ d =>
    Returned (first (map (with_workoutExercises d)
                       (select_workouts
                          (SrcData.owned workoutId (or_else userId "")) d)),
              d)).

(** A [Date] built from a string may be invalid: [None]. *)
Definition JsDate := option Date.

Record UpdateData : Type := mkUpdate
  { u_name : option string;
    u_startedAt : option JsDate;
    u_completedAt : option (option JsDate) }.

(** The timestamp columns encode a [Date] with [toISOString()], which throws
    a [RangeError] on an invalid one, before anything is sent. *)
Definition invalid_time : JsThrown := ErrorObj "Invalid time value".

Definition encodable (data : UpdateData) : bool :=
  match u_startedAt data with Some None => false | _ => true end
  && match u_completedAt data with Some (Some None) => false | _ => true end.

(** SET of the keys that are present; [completedAt: null] clears the
    column.  An invalid date never gets here ([encodable]). *)
Definition apply_update (data : UpdateData) (now : Date) (r : Workout.t)
  : Workout.t :=
  Workout.mk (Workout.id r) (Workout.userId r)
    (match u_name data with Some n => Some n | None => Workout.name r end)
    (match u_startedAt data with
     | Some (Some t) => t
     | Some None | None => Workout.startedAt r
     end)
    (match u_completedAt data with
     | Some (Some (Some t)) => Some t
     | Some None => None
     | Some (Some None) | None => Workout.completedAt r
     end)
    (Workout.createdAt r)
    now.

Definition not_found : JsThrown :=
  ErrorObj "Workout not found or unauthorized".

Definition updateWorkout (workoutId : Z) (data : UpdateData)
  : M JsThrown (option Workout.t) :=
  userId <- auth ;;
  if falsy userId then throw unauthorized else
  existingWorkout <- storage (fun _ d =>
    Returned (first (select_workouts
                       (SrcData.owned workoutId (or_else userId "")) d),
              d)) ;;
  match existingWorkout with
  | None => throw not_found
  | Some _ =>
      now <- new_Date ;;
      if encodable data then
        rows <- storage (fun _ =>
                  update_workouts (fun r => Workout.id r =? workoutId)
                                  (apply_update data now)) ;;
        ret (first rows)
      else throw invalid_time
  end.

End Data.

(** The nested lists of one returned workout: its workout exercises by
    [order], each with its sets by [setNumber]. *)
Definition nested_in_order (d : Db) (x : Data.WorkoutWith) : Prop :=
  Permutation
    (map Data.we_row (Data.w_workoutExercises x))
    (filter (fun e => WorkoutExercise.workoutId e =? Workout.id (Data.w_row x))
            (workoutExercises d))
  /\ StronglySorted
       (fun a b => WorkoutExercise.order (Data.we_row a)
                   <= WorkoutExercise.order (Data.we_row b))
       (Data.w_workoutExercises x)
  /\ Forall
       (fun e =>
          Permutation
            (Data.we_sets e)
            (filter (fun s => SetRow.workoutExerciseId s
                              =? WorkoutExercise.id (Data.we_row e))
                    (sets d))
          /\ StronglySorted
               (fun a b => SetRow.setNumber a <= SetRow.setNumber b)
               (Data.we_sets e))
       (Data.w_workoutExercises x).

(** ** The actions *)

Module Actions.

Record ZodIssue : Type := mkIssue
  { path : list string; message : string }.

(** What escapes an action: the [ZodError] of a failed [parse]. *)
Inductive ZodError : Type :=
| mkZodError (issues : list ZodIssue).

(** The uniform result, [{ success: true, workout }] or
    [{ success: false, error }]. *)
Inductive ActionResult : Type :=
| Success (workout : option Workout.t)
| Failure (error : string).

Definition success (r : ActionResult) : bool :=
  match r with Success _ => true | Failure _ => false end.

Record CreateWorkoutInput : Type := mkCreateInput
  { name : option string; startedAt : string }.

Record UpdateWorkoutInput : Type := mkUpdateInput
  { workoutId : Z;
    u_name : option string;
    u_startedAt : option string;
    u_completedAt : option (option string) }.

Section WithDateParse.

(** [Date.parse]; [None] stands for [NaN]. *)
Variable Date_parse : string -> option Date.

(** [z.string().min(1, ...).max(255, ...).optional()] *)
Definition name_issues (v : option string) : list ZodIssue :=
  match v with
  | None => []
  | Some s =>
      (if Nat.ltb (String.length s) 1
       then [mkIssue ["name"%string] "Workout name is required"] else [])
      ++ (if Nat.ltb 255 (String.length s)
          then [mkIssue ["name"%string] "Name is too long"] else [])
  end.

(** [z.string().refine((val) => !isNaN(Date.parse(val)), ...)] *)
Definition startedAt_issues (v : string) : list ZodIssue :=
  match Date_parse v with
  | Some _ => []
  | None => [mkIssue ["startedAt"%string] "Invalid date format"]
  end.

Definition createWorkoutSchema (input : CreateWorkoutInput)
  : list ZodIssue :=
  name_issues (name input) ++ startedAt_issues (startedAt input).

(** [schema.parse(input)] *)
Definition parse {A} (schema : A -> list ZodIssue) (input : A)
  : M ZodError A :=
  match schema input with
  | [] => ret input
  | issues => throw (mkZodError issues)
  end.

(** [new Date(s)] *)
Definition Date_of_string (s : string) : Data.JsDate := Date_parse s.

Definition createWorkoutAction (input : CreateWorkoutInput)
  : M ZodError ActionResult :=
  validatedData <- parse createWorkoutSchema input ;;
  userId <- auth ;;
  if falsy userId then ret (Failure "Unauthorized") else
  try_catch
    (match Date_of_string (startedAt validatedData) with
     | Some t =>
         workout <- SrcData.createWorkout
                      (SrcData.mkCreate (or_else userId "")
                                        (name validatedData) t) ;;
         revalidatePath "/dashboard" ;;;
         ret (Success workout)
     | None => throw Data.invalid_time
     end)
    (fun error =>
       console_error "Failed to create workout:" error ;;;
       ret (Failure "Failed to create workout")).

Definition number_to_string (n : Z) : string :=
  NilZero.string_of_int (Z.to_int n).

(** The [updateData] object that [updateWorkoutAction] builds: [name] when
    it is not [undefined], [startedAt] when it is truthy, [completedAt] when
    it is [null] or truthy. *)
Definition updateData (data : UpdateWorkoutInput) : Data.UpdateData :=
  Data.mkUpdate
    (u_name data)
    (match u_startedAt data with
     | Some s => if String.eqb s "" then None else Some (Date_of_string s)
     | None => None
     end)
    (match u_completedAt data with
     | Some None => Some None
     | Some (Some s) => if String.eqb s "" then None
                        else Some (Some (Date_of_string s))
     | None => None
     end).

Definition updateWorkoutAction (data : UpdateWorkoutInput)
  : M ZodError ActionResult :=
  try_catch
    (workout <- Data.updateWorkout (workoutId data) (updateData data) ;;
     revalidatePath "/dashboard" ;;;
     revalidatePath ("/dashboard/workout/" ++ number_to_string (workoutId data)) ;;;
     ret (Success workout))
    (fun error =>
       console_error "Failed to update workout:" error ;;;
       ret (Failure
              (match error with
               | ErrorObj message => message
               | NonError _ => "Failed to update workout"
               end))).

End WithDateParse.

End Actions.

(** ** components/dashboard/workouts-list.tsx *)

(** [{workout.name || "Untitled Workout"}] *)
Definition cardTitle (r : Workout.t) : string :=
  or_else (Workout.name r) "Untitled Workout".

(** ** The pages and forms that call the helpers and the actions *)

Module Pages.

(** What [EditWorkoutPage] ends in: [notFound()] or the edit form of the
    workout. *)
Inductive EditPage : Type :=
| NotFound
| EditForm (workout : Data.WorkoutWith).

(** What a submit leaves in the form component: the [error] state, the
    paths given to [router.push], and what went to [console.error]. *)
Record FormState : Type := mkForm
  { error : option string;
    pushed : list string;
    logged : list Actions.ZodError }.

(** [s || undefined] on a form field. *)
Definition blank_to_undefined (s : string) : option string :=
  if String.eqb s "" then None else Some s.

Section WithBuiltins.

(** [parseInt(s, 10)], [None] for [NaN]; [Date.parse]; [toISOString]. *)
Variable parseInt : string -> option Z.
Variable Date_parse : string -> option Date.
Variable toISOString : Date -> string.

Definition EditWorkoutPage (workoutId : string) : M JsThrown EditPage :=
  match parseInt workoutId with
  | None => ret NotFound
  | Some workoutIdNum =>
      workout <- Data.getUserWorkoutById workoutIdNum ;;
      match workout with
      | None => ret NotFound
      | Some found => ret (EditForm found)
      end
  end.

(** [handleSubmit] of the new-workout page, on the values of the fields
    [name] and [startedAt]. *)
Definition NewWorkoutPage_handleSubmit (name startedAt : string)
  : World -> FormState * World :=
  fun w =>
    let input :=
      Actions.mkCreateInput
        (blank_to_undefined name)
        (if String.eqb startedAt "" then toISOString (clock w)
         else startedAt) in
    match Actions.createWorkoutAction Date_parse input w with
    | (Returned (Actions.Success _), w') =>
        (mkForm None ["/dashboard"%string] [], w')
    | (Returned (Actions.Failure e), w') =>
        (mkForm (Some (or_else (Some e) "Failed to create workout")) [] [],
         w')
    | (Thrown err, w') =>
        (mkForm (Some "An unexpected error occurred"%string) [] [err], w')
    end.

(** [handleSubmit] of [WorkoutEditForm] for the workout [id], on the values
    of the fields [name], [startedAt] and [completedAt]. *)
Definition WorkoutEditForm_handleSubmit (id : Z)
  (name startedAt completedAt : string) : World -> FormState * World :=
  fun w =>
    let input :=
      Actions.mkUpdateInput
        id
        (blank_to_undefined name)
        (blank_to_undefined startedAt)
        (if String.eqb completedAt "" then Some None
         else Some (Some completedAt)) in
    match Actions.updateWorkoutAction Date_parse input w with
    | (Returned (Actions.Success _), w') =>
        (mkForm None ["/dashboard"%string] [], w')
    | (Returned (Actions.Failure e), w') =>
        (mkForm (Some (or_else (Some e) "Failed to update workout")) [] [],
         w')
    | (Thrown err, w') =>
        (mkForm (Some "An unexpected error occurred"%string) [] [err], w')
    end.

End WithBuiltins.

End Pages.

(** Builtins for the sample data: a [parseInt] that knows the ids of the
    sample and a [toISOString] that knows the sample clock. *)
Module SampleBuiltins.

Definition parseInt (s : string) : option Z :=
  if String.eqb s "1" then Some 1
  else if String.eqb s "2" then Some 2
  else if String.eqb s "3" then Some 3
  else None.

Definition toISOString (t : Date) : string :=
  if t =? 1736496000000 then "2025-01-10T08:00:00Z"
  else "2025-01-10T10:00:00.000Z".

(** A [Date.parse] that reads the two strings of [toISOString] and the
    value of a datetime-local field. *)
Definition Date_parse (s : string) : option Date :=
  if String.eqb s "2025-01-10T08:00:00Z" then Some 1736496000000
  else if String.eqb s "2025-01-10T10:00:00.000Z" then Some 1736503200000
  else if String.eqb s "2025-01-10T09:30" then Some 1736501400000
  else None.

End SampleBuiltins.

(** ** Sample data

    User [u1] has a finished and an open workout on 10 Jan 2025, user [u2]
    one workout the day after.  The first workout has two exercises, the
    first of them with three sets. *)

Module Sample.

Definition t0 : Date := 1736496000000.   (* 2025-01-10T08:00:00Z *)

Definition legDay : Workout.t :=
  Workout.mk 1 "u1" (Some "Leg Day"%string) t0 (Some (t0 + 3600000)) t0 t0.

Definition evening : Workout.t :=
  Workout.mk 2 "u1" None (t0 + 36000000) None t0 t0.

Definition other : Workout.t :=
  Workout.mk 3 "u2" (Some "Push"%string) (t0 + 86400000) None t0 t0.

Definition db0 : Db :=
  mkDb [Exercise.mk 1 "Squat" t0 t0; Exercise.mk 2 "Lunge" t0 t0]
       [legDay; evening; other]
       [WorkoutExercise.mk 1 1 2 2 t0; WorkoutExercise.mk 2 1 1 1 t0;
        WorkoutExercise.mk 3 3 1 1 t0]
       [SetRow.mk 1 2 2 10000 5 t0; SetRow.mk 2 2 1 9000 5 t0;
        SetRow.mk 3 2 3 10000 4 t0; SetRow.mk 4 3 1 6000 8 t0]
       4.

Definition world (user : option string) (fate : list (option JsThrown))
  : World :=
  mkWorld user db0 (t0 + 7200000) 0 fate [] [].

(** A [Date.parse] that knows one timestamp. *)
Definition Date_parse (s : string) : option Date :=
  if String.eqb s "2025-01-10T08:00:00Z" then Some t0 else None.

Definition down : JsThrown := ErrorObj "connect ECONNREFUSED 127.0.0.1:5432".

End Sample.

(** * Properties *)

(** ** Worlds and round trips *)

Lemma with_db_same (w : World) : with_db w (db w) = w.
Proof. destruct w; reflexivity. Qed.

Lemma with_faults_same (w : World) :
  faults w = [] -> with_faults w (tl (faults w)) = w.
Proof. destruct w; simpl; intros ->; reflexivity. Qed.

Lemma storage_up {A} (q : Date -> Db -> Outcome JsThrown (A * Db)) (w : World) :
  faults w = [] ->
  storage q w =
  match q (clock w) (db w) with
  | Returned (a, d) => (Returned a, with_db w d)
  | Thrown e => (Thrown e, w)
  end.
Proof.
  intros H. unfold storage. rewrite (with_faults_same w H), H. reflexivity.
Qed.

Lemma storage_down {A} (q : Date -> Db -> Outcome JsThrown (A * Db))
  (w : World) (f : JsThrown) (rest : list (option JsThrown)) :
  faults w = Some f :: rest ->
  storage q w = (Thrown f, with_faults w rest).
Proof. intros H. unfold storage. rewrite H. reflexivity. Qed.

(** A query leaves the tables alone whatever the fate of the round trip. *)
Lemma storage_query {A} (f : Db -> A) (w : World) :
  exists w',
    db w' = db w /\ (faults w = [] -> w' = w)
    /\ (storage (fun _ d => Returned (f d, d)) w = (Returned (f (db w)), w')
        \/ exists e, storage (fun _ d => Returned (f d, d)) w = (Thrown e, w')).
Proof.
  exists (with_faults w (tl (faults w))).
  split; [reflexivity|]. split; [apply with_faults_same|].
  unfold storage. destruct (hd None (faults w)) as [e|].
  - right. exists e. reflexivity.
  - left. unfold with_db; simpl. reflexivity.
Qed.

(** ** Primary key *)

Lemma pk_row_eq (l : list Workout.t) (a b : Workout.t) :
  NoDup (map Workout.id l) -> In a l -> In b l ->
  Workout.id a = Workout.id b -> a = b.
Proof.
  induction l as [|x l IH]; simpl; intros ND Ha Hb E; [contradiction|].
  inversion ND as [|? ? Hx ND']; subst.
  destruct Ha as [->|Ha], Hb as [->|Hb]; auto.
  - exfalso. apply Hx. rewrite E. now apply in_map.
  - exfalso. apply Hx. rewrite <- E. now apply in_map.
Qed.

Lemma owned_spec (id : Z) (u : string) (r : Workout.t) :
  SrcData.owned id u r = true <-> Workout.id r = id /\ Workout.userId r = u.
Proof.
  unfold SrcData.owned.
  rewrite andb_true_iff, Z.eqb_eq, String.eqb_eq. tauto.
Qed.

Lemma first_firstn_1 {A} (l : list A) : first (firstn 1 l) = first l.
Proof. destruct l; reflexivity. Qed.

Lemma first_In {A} (l : list A) (a : A) : first l = Some a -> In a l.
Proof. destruct l; simpl; [discriminate|]. intros [= ->]. now left. Qed.

Lemma first_filter_none {A} (p : A -> bool) (l : list A) :
  (forall a, In a l -> p a = false) -> first (filter p l) = None.
Proof.
  induction l as [|x l IH]; simpl; intros H; [reflexivity|].
  rewrite (H x (or_introl eq_refl)). apply IH. intros a Ha. apply H. now right.
Qed.

(** The row that [getWorkout] would read from tables [d]. *)
Lemma getWorkout_run (id : Z) (u : string) (w : World) :
  exists w',
    db w' = db w /\ (faults w = [] -> w' = w)
    /\ (SrcData.getWorkout id u w
        = (Returned (first (select_workouts (SrcData.owned id u) (db w))), w')
        \/ exists e, SrcData.getWorkout id u w = (Thrown e, w')).
Proof.
  unfold SrcData.getWorkout, bind.
  destruct (storage_query
              (fun d => firstn 1 (select_workouts (SrcData.owned id u) d)) w)
    as (w' & Hdb & Hup & [H|[e H]]).
  - exists w'. split; [exact Hdb|]. split; [exact Hup|]. left.
    rewrite H. unfold ret. now rewrite first_firstn_1.
  - exists w'. split; [exact Hdb|]. split; [exact Hup|]. right. exists e.
    now rewrite H.
Qed.

Lemma select_other_owner (d : Db) (W : Workout.t) (U2 : string) :
  pk_unique d -> In W (workouts d) -> U2 <> Workout.userId W ->
  first (select_workouts (SrcData.owned (Workout.id W) U2) d) = None.
Proof.
  intros PK HW HU. unfold select_workouts. apply first_filter_none.
  intros r Hr. destruct (SrcData.owned (Workout.id W) U2 r) eqn:E; auto.
  apply owned_spec in E. destruct E as [Eid Eu].
  assert (r = W) by (eapply pk_row_eq; eauto). subst. congruence.
Qed.

(** C1.  [getWorkout] is the enforcement point of ownership: asked for the
    id of a workout of user U on behalf of another user U2 it never yields
    that workout, and yields no record at all when the store answers; and
    whatever record it yields is a row of the table with the requested id
    and the requesting owner. *)
Theorem getWorkout_isolates_owners (w : World) :
  pk_unique (db w) ->
  (forall (W : Workout.t) (U2 : string),
      In W (workouts (db w)) -> U2 <> Workout.userId W ->
      fst (SrcData.getWorkout (Workout.id W) U2 w) <> Returned (Some W)
      /\ (faults w = [] ->
          SrcData.getWorkout (Workout.id W) U2 w = (Returned None, w)))
  /\ (forall (id : Z) (u : string) (r : Workout.t) (w' : World),
         SrcData.getWorkout id u w = (Returned (Some r), w') ->
         In r (workouts (db w))
         /\ Workout.id r = id /\ Workout.userId r = u).
Proof.
  intros PK. split.
  - intros W U2 HW HU.
    pose proof (select_other_owner (db w) W U2 PK HW HU) as Hnone.
    destruct (getWorkout_run (Workout.id W) U2 w) as (w' & _ & Hup & [H|[e H]]).
    + rewrite H, Hnone. split; [simpl; discriminate|].
      intros Hf. now rewrite (Hup Hf).
    + rewrite H. split; [simpl; discriminate|].
      intros Hf. exfalso. unfold SrcData.getWorkout, bind in H.
      rewrite storage_up in H by exact Hf. discriminate.
  - intros id u r w' H.
    destruct (getWorkout_run id u w) as (w1 & _ & _ & [H1|[e H1]]);
      rewrite H1 in H; [|discriminate].
    injection H as Hr _. apply first_In in Hr.
    unfold select_workouts in Hr. apply filter_In in Hr.
    destruct Hr as [Hin Ho]. apply owned_spec in Ho. tauto.
Qed.

Lemma sample_pk : pk_unique Sample.db0.
Proof.
  unfold pk_unique; simpl.
  repeat constructor; simpl; intuition discriminate.
Qed.

Lemma getWorkout_isolates_owners_witness :
  SrcData.getWorkout 1 "u2" (Sample.world (Some "u2"%string) [])
  = (Returned None, Sample.world (Some "u2"%string) []).
Proof.
  apply (proj1 (getWorkout_isolates_owners
                  (Sample.world (Some "u2"%string) []) sample_pk)
               Sample.legDay "u2"%string).
  - simpl. now left.
  - unfold Sample.legDay; simpl. discriminate.
  - reflexivity.
Defined.

(** ** Rows under the primary key *)

Lemma filter_none {A} (p : A -> bool) (l : list A) :
  (forall a, In a l -> p a = false) -> filter p l = [].
Proof.
  induction l as [|x l IH]; simpl; intros H; [reflexivity|].
  rewrite (H x (or_introl eq_refl)). apply IH. intros a Ha. apply H. now right.
Qed.

Lemma filter_all {A} (p : A -> bool) (l : list A) :
  (forall a, In a l -> p a = true) -> filter p l = l.
Proof.
  induction l as [|x l IH]; simpl; intros H; [reflexivity|].
  rewrite (H x (or_introl eq_refl)). f_equal. apply IH.
  intros a Ha. apply H. now right.
Qed.

(** Under the primary key, id and owner select the row itself. *)
Lemma select_own_row (l : list Workout.t) (W : Workout.t) :
  NoDup (map Workout.id l) -> In W l ->
  filter (SrcData.owned (Workout.id W) (Workout.userId W)) l = [W].
Proof.
  induction l as [|x l IH]; simpl; intros ND HW; [contradiction|].
  inversion ND as [|? ? Hx ND']; subst.
  destruct HW as [->|HW].
  - replace (SrcData.owned (Workout.id W) (Workout.userId W) W) with true
      by (symmetry; now apply owned_spec).
    f_equal. apply filter_none. intros a Ha.
    destruct (SrcData.owned (Workout.id W) (Workout.userId W) a) eqn:E; auto.
    apply owned_spec in E. destruct E as [E _].
    exfalso. apply Hx. rewrite <- E. now apply in_map.
  - destruct (SrcData.owned (Workout.id W) (Workout.userId W) x) eqn:E.
    + apply owned_spec in E. destruct E as [E _].
      exfalso. apply Hx. rewrite E. now apply in_map.
    + now apply IH.
Qed.

Lemma apply_update_fits (data : SrcData.UpdateWorkoutData) (now : Date)
  (W : Workout.t) :
  workout_row_fits W = true -> name_fits (SrcData.u_name data) ->
  workout_row_fits (SrcData.apply_update data now W) = true.
Proof.
  unfold workout_row_fits, SrcData.apply_update, name_fits; simpl.
  intros HW Hn. apply andb_true_iff in HW. destruct HW as [Hu Hname].
  rewrite Hu; simpl.
  destruct (SrcData.u_name data) as [n|]; [now apply Hn | exact Hname].
Qed.

(** C6.  [updateWorkout(id, ownerId, partialFields)] on a workout of the
    owner returns the updated record: a field that the payload leaves out
    keeps its value, a supplied field takes the supplied value, the update
    timestamp is the current time, id, owner, start and creation time are
    kept; the record replaces the old one in the table and every other row
    and every other table is left as it was. *)
Theorem updateWorkout_changes_only_supplied_fields
  (w : World) (W : Workout.t) (data : SrcData.UpdateWorkoutData) :
  pk_unique (db w) -> rows_fit (db w) -> faults w = [] ->
  In W (workouts (db w)) -> name_fits (SrcData.u_name data) ->
  exists (W' : Workout.t) (w' : World),
    SrcData.updateWorkout (Workout.id W) (Workout.userId W) data w
    = (Returned (Some W'), w')
    /\ (SrcData.u_name data = None -> Workout.name W' = Workout.name W)
    /\ (forall n, SrcData.u_name data = Some n -> Workout.name W' = Some n)
    /\ (SrcData.u_completedAt data = None ->
        Workout.completedAt W' = Workout.completedAt W)
    /\ (forall t, SrcData.u_completedAt data = Some t ->
                  Workout.completedAt W' = Some t)
    /\ Workout.updatedAt W' = clock w
    /\ Workout.id W' = Workout.id W
    /\ Workout.userId W' = Workout.userId W
    /\ Workout.startedAt W' = Workout.startedAt W
    /\ Workout.createdAt W' = Workout.createdAt W
    /\ workouts (db w')
       = map (fun r => if Workout.id r =? Workout.id W then W' else r)
             (workouts (db w))
    /\ exercises (db w') = exercises (db w)
    /\ workoutExercises (db w') = workoutExercises (db w)
    /\ sets (db w') = sets (db w).
Proof.
  intros PK Fit Hf HW Hn.
  exists (SrcData.apply_update data (clock w) W).
  unfold SrcData.updateWorkout, bind, new_Date.
  rewrite storage_up by exact Hf.
  unfold update_workouts.
  rewrite (select_own_row _ W PK HW). simpl.
  assert (HfitW : workout_row_fits W = true).
  { unfold rows_fit in Fit. rewrite Forall_forall in Fit. now apply Fit. }
  rewrite (apply_update_fits data (clock w) W HfitW Hn). simpl.
  eexists. split; [reflexivity|].
  unfold SrcData.apply_update; simpl.
  repeat split.
  - intros ->. reflexivity.
  - intros n ->. reflexivity.
  - intros ->. reflexivity.
  - intros t ->. reflexivity.
  - apply map_ext_in. intros r Hr.
    destruct (Workout.id r =? Workout.id W) eqn:E.
    + apply Z.eqb_eq in E.
      assert (r = W) by (eapply pk_row_eq; eauto). subst r.
      replace (SrcData.owned (Workout.id W) (Workout.userId W) W) with true
        by (symmetry; now apply owned_spec).
      reflexivity.
    + unfold SrcData.owned. rewrite E. reflexivity.
Qed.

Lemma sample_fit : rows_fit Sample.db0.
Proof. unfold rows_fit; simpl. repeat constructor. Qed.

Lemma updateWorkout_changes_only_supplied_fields_witness :
  exists (W' : Workout.t) (w' : World),
    SrcData.updateWorkout 2 "u1"
      (SrcData.mkUpdate None (Some (Sample.t0 + 39600000)))
      (Sample.world (Some "u1"%string) [])
    = (Returned (Some W'), w')
    /\ Workout.name W' = None
    /\ Workout.completedAt W' = Some (Sample.t0 + 39600000)
    /\ Workout.startedAt W' = Sample.t0 + 36000000.
Proof.
  destruct (updateWorkout_changes_only_supplied_fields
              (Sample.world (Some "u1"%string) []) Sample.evening
              (SrcData.mkUpdate None (Some (Sample.t0 + 39600000)))
              sample_pk sample_fit eq_refl
              (or_intror (or_introl eq_refl))
              ltac:(intros s H; discriminate H))
    as (W' & w' & Hrun & Hname & _ & _ & Hdone & _ & _ & _ & Hstart & _).
  exists W', w'. split; [exact Hrun|]. split; [now apply Hname|].
  split; [now apply Hdone | exact Hstart].
Defined.

(** The helper of [data/workouts.ts] that [updateWorkoutAction] calls
    resolves the owner itself, reads the row first and then updates by id.
    It has the same frame. *)

Lemma select_by_id (l : list Workout.t) (W : Workout.t) :
  NoDup (map Workout.id l) -> In W l ->
  filter (fun r => Workout.id r =? Workout.id W) l = [W].
Proof.
  induction l as [|x l IH]; simpl; intros ND HW; [contradiction|].
  inversion ND as [|? ? Hx ND']; subst.
  destruct HW as [->|HW].
  - rewrite Z.eqb_refl. f_equal. apply filter_none. intros a Ha.
    apply Z.eqb_neq. intros E. apply Hx. rewrite <- E. now apply in_map.
  - destruct (Workout.id x =? Workout.id W) eqn:E.
    + apply Z.eqb_eq in E. exfalso. apply Hx. rewrite E. now apply in_map.
    + now apply IH.
Qed.

(** X13.  [updateWorkout] of data/workouts.ts on a workout of the
    signed-in user, when the store answers: it returns the updated record,
    in which only the fields of the payload and [updatedAt] differ from
    the old one ([completedAt: null] clears the completion); the record
    replaces the old one and every other row and table is as it was. *)
Lemma updateWorkout_by_auth_changes_only_supplied_fields
  (w : World) (W : Workout.t) (data : Data.UpdateData) :
  pk_unique (db w) -> rows_fit (db w) -> faults w = [] ->
  In W (workouts (db w)) ->
  authUserId w = Some (Workout.userId W) -> Workout.userId W <> ""%string ->
  name_fits (Data.u_name data) -> Data.encodable data = true ->
  exists (W' : Workout.t) (w' : World),
    Data.updateWorkout (Workout.id W) data w = (Returned (Some W'), w')
    /\ (Data.u_name data = None -> Workout.name W' = Workout.name W)
    /\ (forall n, Data.u_name data = Some n -> Workout.name W' = Some n)
    /\ (Data.u_startedAt data = None ->
        Workout.startedAt W' = Workout.startedAt W)
    /\ (forall t, Data.u_startedAt data = Some (Some t) ->
                  Workout.startedAt W' = t)
    /\ (Data.u_completedAt data = None ->
        Workout.completedAt W' = Workout.completedAt W)
    /\ (Data.u_completedAt data = Some None -> Workout.completedAt W' = None)
    /\ (forall t, Data.u_completedAt data = Some (Some (Some t)) ->
                  Workout.completedAt W' = Some t)
    /\ Workout.updatedAt W' = clock w
    /\ Workout.id W' = Workout.id W
    /\ Workout.userId W' = Workout.userId W
    /\ Workout.createdAt W' = Workout.createdAt W
    /\ workouts (db w')
       = map (fun r => if Workout.id r =? Workout.id W then W' else r)
             (workouts (db w))
    /\ same_children (db w) (db w').
Proof.
  intros PK Fit Hf HW Hauth HU Hn Henc.
  exists (Data.apply_update data (clock w) W).
  unfold Data.updateWorkout, bind, auth. rewrite Hauth.
  assert (Hs : falsy (Some (Workout.userId W)) = false)
    by (simpl; now apply String.eqb_neq).
  assert (Ho : or_else (Some (Workout.userId W)) "" = Workout.userId W)
    by (unfold or_else; now rewrite Hs).
  rewrite Hs, Ho.
  rewrite storage_up by exact Hf. rewrite with_db_same.
  unfold select_workouts. rewrite (select_own_row _ W PK HW). simpl.
  unfold new_Date. rewrite Henc.
  rewrite storage_up by exact Hf.
  unfold update_workouts. rewrite (select_by_id _ W PK HW). simpl.
  assert (HfitW : workout_row_fits W = true).
  { unfold rows_fit in Fit. rewrite Forall_forall in Fit. now apply Fit. }
  assert (Hfit' : workout_row_fits (Data.apply_update data (clock w) W)
                  = true).
  { unfold workout_row_fits, Data.apply_update in *; simpl.
    apply andb_true_iff in HfitW. destruct HfitW as [Hu Hname].
    rewrite Hu; simpl.
    destruct (Data.u_name data) as [n|]; [now apply Hn | exact Hname]. }
  rewrite Hfit'. simpl.
  eexists. split; [reflexivity|].
  unfold Data.apply_update; simpl.
  repeat split.
  - intros ->. reflexivity.
  - intros n ->. reflexivity.
  - intros ->. reflexivity.
  - intros t ->. reflexivity.
  - intros ->. reflexivity.
  - intros ->. reflexivity.
  - intros t ->. reflexivity.
  - apply map_ext_in. intros r Hr.
    destruct (Workout.id r =? Workout.id W) eqn:E; [|reflexivity].
    apply Z.eqb_eq in E.
    assert (r = W) by (eapply pk_row_eq; eauto). now subst r.
Qed.

(** ** Deleting *)

Lemma mem_spec (x : Z) (l : list Z) : mem x l = true <-> In x l.
Proof.
  unfold mem. rewrite existsb_exists. split.
  - intros (y & Hy & E). apply Z.eqb_eq in E. now subst.
  - intros H. exists x. split; [exact H | apply Z.eqb_refl].
Qed.

Lemma delete_nothing (p : Workout.t -> bool) (d : Db) :
  (forall r, In r (workouts d) -> p r = false) ->
  delete_workouts p d = ([], d).
Proof.
  intros H. unfold delete_workouts.
  rewrite (filter_none p (workouts d) H). simpl.
  rewrite (filter_all (fun r => negb (p r)) (workouts d))
    by (intros a Ha; now rewrite H).
  rewrite (filter_all _ (workoutExercises d)) by reflexivity.
  rewrite (filter_none _ (workoutExercises d)) by reflexivity. simpl.
  rewrite (filter_all _ (sets d)) by reflexivity.
  destruct d; reflexivity.
Qed.

(** C7.  When the store answers, [deleteWorkout(id, ownerId)] on a workout
    of the owner returns the deleted record and leaves no workout with that
    id, no workout exercise of that workout and no set of any of its
    workout exercises; when no workout has that id and that owner, absence
    is returned and the tables are left as they were. *)
Theorem deleteWorkout_cascades (w : World) (id : Z) (ownerId : string) :
  pk_unique (db w) -> faults w = [] ->
  (forall W : Workout.t,
      In W (workouts (db w)) ->
      Workout.id W = id -> Workout.userId W = ownerId ->
      exists w' : World,
        SrcData.deleteWorkout id ownerId w = (Returned (Some W), w')
        /\ (forall r, In r (workouts (db w')) -> Workout.id r <> id)
        /\ (forall e, In e (workoutExercises (db w')) ->
                      WorkoutExercise.workoutId e <> id)
        /\ (forall s e, In s (sets (db w')) ->
                        In e (workoutExercises (db w)) ->
                        WorkoutExercise.workoutId e = id ->
                        SetRow.workoutExerciseId s <> WorkoutExercise.id e))
  /\ ((forall r, In r (workouts (db w)) ->
                 ~ (Workout.id r = id /\ Workout.userId r = ownerId)) ->
      SrcData.deleteWorkout id ownerId w = (Returned None, w)).
Proof.
  intros PK Hf. split.
  - intros W HW Hid Hu. subst id ownerId.
    unfold SrcData.deleteWorkout, bind.
    rewrite storage_up by exact Hf.
    unfold delete_workouts.
    rewrite (select_own_row _ W PK HW). simpl.
    eexists. split; [reflexivity|]. simpl. repeat split.
    + intros r Hr E. apply filter_In in Hr. destruct Hr as [Hr Hp].
      assert (r = W) by (eapply pk_row_eq; eauto). subst r.
      replace (SrcData.owned (Workout.id W) (Workout.userId W) W) with true
        in Hp by (symmetry; now apply owned_spec).
      discriminate.
    + intros e He E. apply filter_In in He. destruct He as [_ Hm].
      rewrite E, Z.eqb_refl in Hm. discriminate.
    + intros s e Hs He Ew E. apply filter_In in Hs. destruct Hs as [_ Hm].
      apply negb_true_iff in Hm.
      assert (Hin : mem (SetRow.workoutExerciseId s)
                      (map WorkoutExercise.id
                         (filter (fun e0 =>
                                    (WorkoutExercise.workoutId e0
                                     =? Workout.id W) || false)
                                 (workoutExercises (db w)))) = true).
      { apply mem_spec. rewrite E. apply in_map. apply filter_In.
        split; [exact He|]. now rewrite Ew, Z.eqb_refl. }
      congruence.
  - intros Hnone.
    unfold SrcData.deleteWorkout, bind.
    rewrite storage_up by exact Hf.
    rewrite delete_nothing.
    + rewrite with_db_same. reflexivity.
    + intros r Hr. destruct (SrcData.owned id ownerId r) eqn:E; auto.
      apply owned_spec in E. exfalso. now apply (Hnone r Hr).
Qed.

Lemma deleteWorkout_cascades_witness :
  exists w' : World,
    SrcData.deleteWorkout 1 "u1" (Sample.world (Some "u1"%string) [])
    = (Returned (Some Sample.legDay), w')
    /\ (forall e, In e (workoutExercises (db w')) ->
                  WorkoutExercise.workoutId e <> 1).
Proof.
  destruct (proj1 (deleteWorkout_cascades
                     (Sample.world (Some "u1"%string) []) 1 "u1"%string
                     sample_pk eq_refl)
                  Sample.legDay (or_introl eq_refl) eq_refl eq_refl)
    as (w' & Hrun & _ & Hwe & _).
  exists w'. split; [exact Hrun | exact Hwe].
Defined.

(** ** Creating *)

Lemma fresh_id_not_selected (d : Db) (u : string) :
  seq_fresh d ->
  filter (SrcData.owned (workouts_id_seq d) u) (workouts d) = [].
Proof.
  intros Fr. apply filter_none. intros r Hr.
  unfold seq_fresh in Fr. rewrite Forall_forall in Fr. specialize (Fr r Hr).
  unfold SrcData.owned.
  replace (Workout.id r =? workouts_id_seq d) with false
    by (symmetry; apply Z.eqb_neq; lia).
  reflexivity.
Qed.

(** C8.  For an input that the columns admit, [createWorkout] returns the
    created record, an immediate [getWorkout] with its id and its owner
    returns that same record, and the record carries the supplied owner,
    name and start time, a null [completedAt] and equal creation and update
    timestamps. *)
Theorem create_then_get_round_trip (w : World)
  (data : SrcData.CreateWorkoutData) :
  seq_fresh (db w) -> faults w = [] ->
  varchar255 (SrcData.c_userId data) = true ->
  name_fits (SrcData.c_name data) ->
  exists (W : Workout.t) (w' : World),
    SrcData.createWorkout data w = (Returned (Some W), w')
    /\ SrcData.getWorkout (Workout.id W) (SrcData.c_userId data) w'
       = (Returned (Some W), w')
    /\ Workout.userId W = SrcData.c_userId data
    /\ Workout.name W = SrcData.c_name data
    /\ Workout.startedAt W = SrcData.c_startedAt data
    /\ Workout.completedAt W = None
    /\ Workout.createdAt W = Workout.updatedAt W.
Proof.
  intros Fr Hf Hu Hn.
  unfold SrcData.createWorkout, bind.
  rewrite storage_up by exact Hf.
  unfold insert_workout, workout_row_fits; simpl. rewrite Hu; simpl.
  assert (Hname : match SrcData.c_name data with
                  | Some n => varchar255 n
                  | None => true
                  end = true).
  { destruct (SrcData.c_name data) as [n|]; [now apply Hn | reflexivity]. }
  rewrite Hname. simpl.
  eexists. eexists. split; [reflexivity|]. simpl.
  split; [|repeat split].
  unfold SrcData.getWorkout, bind.
  rewrite storage_up by (simpl; exact Hf). simpl.
  unfold select_workouts; simpl.
  rewrite filter_app, (fresh_id_not_selected (db w) _ Fr). simpl.
  unfold SrcData.owned; simpl.
  rewrite Z.eqb_refl, String.eqb_refl. simpl.
  unfold ret, with_db; simpl. reflexivity.
Qed.


Lemma sample_fresh : seq_fresh Sample.db0.
Proof. unfold seq_fresh; simpl. repeat constructor. Qed.

Lemma create_then_get_round_trip_witness :
  exists (W : Workout.t) (w' : World),
    SrcData.createWorkout
      (SrcData.mkCreate "u1" (Some "Leg Day"%string) Sample.t0)
      (Sample.world (Some "u1"%string) [])
    = (Returned (Some W), w')
    /\ SrcData.getWorkout (Workout.id W) "u1" w' = (Returned (Some W), w')
    /\ Workout.completedAt W = None.
Proof.
  destruct (create_then_get_round_trip
              (Sample.world (Some "u1"%string) [])
              (SrcData.mkCreate "u1" (Some "Leg Day"%string) Sample.t0)
              sample_fresh eq_refl eq_refl
              ltac:(intros s H; injection H as <-; reflexivity))
    as (W & w' & Hc & Hg & _ & _ & _ & Hd & _).
  exists W, w'. split; [exact Hc|]. split; [exact Hg | exact Hd].
Defined.

(** ** The primary key is kept

    The three statements keep the ids of [workouts] distinct and below the
    serial, so the hypotheses above hold of every table that is reached
    from one that satisfies them. *)

Lemma insert_keeps_keys (userId : string) (name : option string)
  (startedAt now : Date) (d d' : Db) (rows : list Workout.t) :
  pk_unique d -> seq_fresh d -> rows_fit d ->
  insert_workout userId name startedAt now d = Returned (rows, d') ->
  pk_unique d' /\ seq_fresh d' /\ rows_fit d'.
Proof.
  unfold insert_workout, pk_unique, seq_fresh, rows_fit.
  intros PK Fr Fit.
  destruct (workout_row_fits _) eqn:Hfit; [|discriminate].
  intros [= <- <-]. simpl. repeat split.
  - rewrite map_app. simpl.
    apply NoDup_app; [exact PK | |].
    + repeat constructor. simpl. tauto.
    + intros x Hx [<-|[]]. apply in_map_iff in Hx.
      destruct Hx as (r & Er & Hr).
      rewrite Forall_forall in Fr. specialize (Fr r Hr). lia.
  - apply Forall_app. split.
    + eapply Forall_impl; [|exact Fr]. simpl. intros. lia.
    + repeat constructor. simpl. lia.
  - apply Forall_app. split; [exact Fit|]. repeat constructor. exact Hfit.
Qed.

Lemma update_keeps_keys (p : Workout.t -> bool)
  (set : Workout.t -> Workout.t) (d d' : Db) (rows : list Workout.t) :
  (forall r, Workout.id (set r) = Workout.id r) ->
  pk_unique d -> seq_fresh d ->
  update_workouts p set d = Returned (rows, d') ->
  pk_unique d' /\ seq_fresh d'.
Proof.
  unfold update_workouts, pk_unique, seq_fresh. intros Hid PK Fr.
  destruct (forallb _ _); [|discriminate].
  intros [= <- <-]. simpl. split.
  - rewrite map_map.
    rewrite (map_ext _ Workout.id); [exact PK|].
    intros r. destruct (p r); [apply Hid | reflexivity].
  - apply Forall_map. eapply Forall_impl; [|exact Fr]. simpl.
    intros r Hr. destruct (p r); [rewrite Hid|]; exact Hr.
Qed.

Lemma remaining_rows_distinct (p : Workout.t -> bool)
  (rows : list Workout.t) :
  NoDup (map Workout.id rows) ->
  NoDup (map Workout.id (filter (fun r => negb (p r)) rows)).
Proof.
  intros PK. induction rows as [|r rows IH]; simpl; [constructor|].
  apply NoDup_cons_iff in PK. destruct PK as [Hr PK].
  destruct (p r); simpl; [now apply IH|].
  apply NoDup_cons; [|now apply IH].
  intros Hin. apply Hr. apply in_map_iff in Hin.
  destruct Hin as (r' & Eid & Hr').
  apply filter_In in Hr'. rewrite <- Eid. apply in_map. tauto.
Qed.

Lemma delete_keeps_keys (p : Workout.t -> bool) (d : Db) :
  pk_unique d -> seq_fresh d ->
  pk_unique (snd (delete_workouts p d))
  /\ seq_fresh (snd (delete_workouts p d)).
Proof.
  unfold delete_workouts, pk_unique, seq_fresh. simpl. intros PK Fr. split.
  - now apply remaining_rows_distinct.
  - rewrite Forall_forall in *. intros r Hr. apply filter_In in Hr.
    apply Fr. tauto.
Qed.

(** The scenario of the specification: create "Leg Day" for [u1], complete
    it, and ask for it as [u2]. *)
Example leg_day_scenario :
  let w0 := mkWorld (Some "u1"%string) (mkDb [] [] [] [] 1)
                    Sample.t0 0 [] [] [] in
  let '(created, w1) :=
    SrcData.createWorkout
      (SrcData.mkCreate "u1" (Some "Leg Day"%string) Sample.t0) w0 in
  let '(updated, w2) :=
    SrcData.updateWorkout 1 "u1"
      (SrcData.mkUpdate None (Some (Sample.t0 + 3600000))) w1 in
  created
  = Returned (Some (Workout.mk 1 "u1" (Some "Leg Day"%string) Sample.t0 None
                               Sample.t0 Sample.t0))
  /\ updated
     = Returned (Some (Workout.mk 1 "u1" (Some "Leg Day"%string) Sample.t0
                                  (Some (Sample.t0 + 3600000))
                                  Sample.t0 Sample.t0))
  /\ fst (SrcData.getWorkout 1 "u2" w2) = Returned None
  /\ fst (SrcData.getWorkout 1 "u1" w2) = updated.
Proof. repeat split. Qed.

(** ** ORDER BY sorts *)

Section OrderBy.

Context {A : Type} (key : A -> Z).

Lemma insert_by_perm (le : A -> A -> bool) (x : A) (l : list A) :
  Permutation (insert_by le x l) (x :: l).
Proof.
  induction l as [|y t IH]; simpl; [reflexivity|].
  destruct (le x y); [reflexivity|].
  rewrite IH. apply perm_swap.
Qed.

Lemma order_by_perm (le : A -> A -> bool) (l : list A) :
  Permutation (order_by le l) l.
Proof.
  induction l as [|x t IH]; simpl; [reflexivity|].
  rewrite insert_by_perm. now apply perm_skip.
Qed.

Lemma insert_asc_sorted (x : A) (l : list A) :
  StronglySorted (ascending key) l ->
  StronglySorted (ascending key) (insert_by (asc key) x l).
Proof.
  induction 1 as [|y t Ht IH Hy]; simpl.
  - repeat constructor.
  - unfold asc at 1. destruct (key x <=? key y) eqn:E.
    + apply Z.leb_le in E. constructor; [now constructor|].
      constructor; [exact E|].
      rewrite Forall_forall in *. intros z Hz.
      specialize (Hy z Hz). unfold ascending in *. lia.
    + apply Z.leb_gt in E. constructor; [exact IH|].
      rewrite (insert_by_perm (asc key) x t).
      constructor; [unfold ascending; lia | exact Hy].
Qed.

Lemma order_by_asc_sorted (l : list A) :
  StronglySorted (ascending key) (order_by (asc key) l).
Proof.
  induction l as [|x t IH]; simpl; [constructor|].
  now apply insert_asc_sorted.
Qed.

Lemma insert_desc_sorted (x : A) (l : list A) :
  StronglySorted (descending key) l ->
  StronglySorted (descending key) (insert_by (desc key) x l).
Proof.
  induction 1 as [|y t Ht IH Hy]; simpl.
  - repeat constructor.
  - unfold desc at 1. destruct (key y <=? key x) eqn:E.
    + apply Z.leb_le in E. constructor; [now constructor|].
      constructor; [exact E|].
      rewrite Forall_forall in *. intros z Hz.
      specialize (Hy z Hz). unfold descending in *. lia.
    + apply Z.leb_gt in E. constructor; [exact IH|].
      rewrite (insert_by_perm (desc key) x t).
      constructor; [unfold descending; lia | exact Hy].
Qed.

Lemma order_by_desc_sorted (l : list A) :
  StronglySorted (descending key) (order_by (desc key) l).
Proof.
  induction l as [|x t IH]; simpl; [constructor|].
  now apply insert_desc_sorted.
Qed.

End OrderBy.

Lemma StronglySorted_map {A B} (f : A -> B) (R : B -> B -> Prop)
  (l : list A) :
  StronglySorted R (map f l) ->
  StronglySorted (fun a b => R (f a) (f b)) l.
Proof.
  induction l as [|x t IH]; simpl; intros H; [constructor|].
  inversion H as [|? ? Ht Hx]; subst. constructor; [now apply IH|].
  rewrite Forall_forall in *. intros a Ha. apply Hx. now apply in_map.
Qed.

Lemma map_w_row (d : Db) (l : list Workout.t) :
  map Data.w_row (map (Data.with_workoutExercises d) l) = l.
Proof. rewrite map_map. simpl. apply map_id. Qed.

Lemma map_we_row (d : Db) (l : list WorkoutExercise.t) :
  map Data.we_row (map (Data.with_exercise_and_sets d) l) = l.
Proof. rewrite map_map. simpl. apply map_id. Qed.

(** ** The day of a date *)

Lemma setHours_midnight (zone d : Z) :
  let s := Data.setHours zone d 0 0 0 0 in
  (s + zone) mod Data.msPerDay = 0 /\ s <= d < s + Data.msPerDay.
Proof.
  unfold Data.setHours, Data.msPerDay; simpl.
  pose proof (Z.mod_pos_bound (d + zone) 86400000 ltac:(lia)) as Hb.
  pose proof (Z.div_mod (d + zone) 86400000 ltac:(lia)) as Hd.
  split; [|lia].
  replace ((d + zone) - (d + zone) mod 86400000 + 0 + 0 + 0 + 0 - zone + zone)
    with (((d + zone) / 86400000) * 86400000) by lia.
  apply Z_mod_mult.
Qed.

Lemma setHours_end_of_day (zone d : Z) :
  Data.setHours zone d 23 59 59 999
  = Data.setHours zone d 0 0 0 0 + 86399999.
Proof. unfold Data.setHours. lia. Qed.

Lemma signed_in (U : string) : U <> ""%string -> falsy (Some U) = false.
Proof. intros H. simpl. now apply String.eqb_neq. Qed.

Lemma signed_in_or_else (U : string) :
  U <> ""%string -> or_else (Some U) "" = U.
Proof. intros H. unfold or_else. now rewrite signed_in. Qed.

Lemma with_workoutExercises_in_order (d : Db) (r : Workout.t) :
  nested_in_order d (Data.with_workoutExercises d r).
Proof.
  unfold nested_in_order, Data.with_workoutExercises; simpl.
  split; [|split].
  - rewrite map_we_row. apply order_by_perm.
  - apply StronglySorted_map with (f := Data.we_row)
      (R := fun a b => WorkoutExercise.order a <= WorkoutExercise.order b).
    rewrite map_we_row. apply (order_by_asc_sorted WorkoutExercise.order).
  - apply Forall_forall. intros e He. apply in_map_iff in He.
    destruct He as (e0 & <- & _). simpl. split.
    + apply order_by_perm.
    + apply (order_by_asc_sorted SetRow.setNumber).
Qed.

(** C5.  For a signed-in user U and a date D, when the store answers,
    [getUserWorkoutsByDate] returns the workouts of U whose [startedAt] lies
    in the half-open window from the local midnight that starts the day of D
    to 23:59:59.999 of that day, each exactly once, in descending order of
    [startedAt]; the workout exercises of each are in ascending [order] and
    the sets of each workout exercise in ascending [setNumber]. *)
Theorem getUserWorkoutsByDate_window_and_order
  (w : World) (U : string) (D : Date) :
  authUserId w = Some U -> U <> ""%string -> faults w = [] ->
  exists (ws : list Data.WorkoutWith) (s : Date),
    Data.getUserWorkoutsByDate D w = (Returned ws, w)
    /\ (s + tz w) mod 86400000 = 0
    /\ s <= D < s + 86400000
    /\ Permutation
         (map Data.w_row ws)
         (filter (fun r => String.eqb (Workout.userId r) U
                           && (s <=? Workout.startedAt r)
                           && (Workout.startedAt r <? s + 86399999))
                 (workouts (db w)))
    /\ (forall r, In r (map Data.w_row ws) <->
                  In r (workouts (db w))
                  /\ Workout.userId r = U
                  /\ s <= Workout.startedAt r < s + 86399999)
    /\ StronglySorted
         (fun a b => Workout.startedAt (Data.w_row b)
                     <= Workout.startedAt (Data.w_row a)) ws
    /\ Forall (nested_in_order (db w)) ws.
Proof.
  intros Hauth HU Hf.
  unfold Data.getUserWorkoutsByDate, bind, auth. rewrite Hauth.
  rewrite (signed_in U HU), (signed_in_or_else U HU).
  rewrite storage_up by exact Hf. rewrite with_db_same.
  rewrite setHours_end_of_day.
  destruct (setHours_midnight (tz w) D) as [Hmid Hday].
  unfold Data.msPerDay in *.
  set (s := Data.setHours (tz w) D 0 0 0 0) in *.
  eexists. exists s. split; [reflexivity|].
  split; [exact Hmid|]. split; [exact Hday|].
  rewrite map_w_row. unfold select_workouts.
  assert (Hperm : Permutation
                    (order_by (desc Workout.startedAt)
                       (filter (Data.on_day U s (s + 86399999))
                               (workouts (db w))))
                    (filter (Data.on_day U s (s + 86399999))
                            (workouts (db w)))) by apply order_by_perm.
  split; [exact Hperm|]. split; [|split].
  - intros r. split.
    + intros Hr. apply (Permutation_in _ Hperm) in Hr.
      apply filter_In in Hr. destruct Hr as [Hin Hp].
      unfold Data.on_day in Hp.
      apply andb_true_iff in Hp. destruct Hp as [Hp Hlt].
      apply andb_true_iff in Hp. destruct Hp as [Hu Hge].
      apply String.eqb_eq in Hu. apply Z.leb_le in Hge.
      apply Z.ltb_lt in Hlt. tauto.
    + intros (Hin & Hu & Hge & Hlt).
      apply (Permutation_in _ (Permutation_sym Hperm)).
      apply filter_In. split; [exact Hin|]. unfold Data.on_day.
      rewrite !andb_true_iff, String.eqb_eq, Z.leb_le, Z.ltb_lt. tauto.
  - apply StronglySorted_map with (f := Data.w_row)
      (R := fun a b => Workout.startedAt b <= Workout.startedAt a).
    rewrite map_w_row. apply (order_by_desc_sorted Workout.startedAt).
  - apply Forall_forall. intros x Hx. apply in_map_iff in Hx.
    destruct Hx as (r & <- & _). apply with_workoutExercises_in_order.
Qed.

Lemma getUserWorkoutsByDate_window_and_order_witness :
  exists (ws : list Data.WorkoutWith),
    Data.getUserWorkoutsByDate (Sample.t0 + 5000)
                               (Sample.world (Some "u1"%string) [])
    = (Returned ws, Sample.world (Some "u1"%string) [])
    /\ StronglySorted
         (fun a b => Workout.startedAt (Data.w_row b)
                     <= Workout.startedAt (Data.w_row a)) ws
    /\ Forall (nested_in_order Sample.db0) ws.
Proof.
  destruct (getUserWorkoutsByDate_window_and_order
              (Sample.world (Some "u1"%string) []) "u1"%string
              (Sample.t0 + 5000) eq_refl ltac:(discriminate) eq_refl)
    as (ws & s & Hrun & _ & _ & _ & _ & Hsorted & Hnested).
  exists ws. split; [exact Hrun|]. split; [exact Hsorted | exact Hnested].
Defined.

(** ** Validation *)

Section Validation.

Variable Date_parse : string -> option Date.

Local Abbreviation schema := (Actions.createWorkoutSchema Date_parse).
Local Abbreviation createWorkoutAction :=
  (Actions.createWorkoutAction Date_parse).
Local Abbreviation updateWorkoutAction :=
  (Actions.updateWorkoutAction Date_parse).

Lemma parse_passes (input : Actions.CreateWorkoutInput) (w : World) :
  schema input = [] ->
  Actions.parse schema input w = (Returned input, w).
Proof. intros H. unfold Actions.parse. rewrite H. reflexivity. Qed.

Lemma parse_throws (input : Actions.CreateWorkoutInput) (w : World) :
  schema input <> [] ->
  Actions.parse schema input w
  = (Thrown (Actions.mkZodError (schema input)), w).
Proof.
  intros H. unfold Actions.parse.
  destruct (schema input); [contradiction | reflexivity].
Qed.

Lemma createWorkoutAction_rejects (input : Actions.CreateWorkoutInput)
  (w : World) :
  schema input <> [] ->
  createWorkoutAction input w
  = (Thrown (Actions.mkZodError (schema input)), w).
Proof.
  intros H. unfold Actions.createWorkoutAction, bind.
  now rewrite (parse_throws input w H).
Qed.

Lemma schema_passes_iff (input : Actions.CreateWorkoutInput) :
  schema input = [] <->
  (forall s, Actions.name input = Some s ->
             (1 <= String.length s <= 255)%nat)
  /\ exists t, Date_parse (Actions.startedAt input) = Some t.
Proof.
  unfold Actions.createWorkoutSchema, Actions.name_issues,
    Actions.startedAt_issues.
  destruct (Actions.name input) as [s|];
    destruct (Date_parse (Actions.startedAt input)) as [t|]; simpl.
  - destruct (Nat.ltb_spec (String.length s) 1);
      destruct (Nat.ltb_spec 255 (String.length s)); simpl; split;
      try discriminate;
      try (intros [Hs _]; specialize (Hs s eq_refl); lia);
      try reflexivity.
    intros _. split; [|now exists t]. intros s0 [= <-]. lia.
  - split.
    + intros H. apply app_eq_nil in H. destruct H as [_ H]. discriminate.
    + intros [_ [t H]]. discriminate.
  - split; [|reflexivity]. intros _. split; [discriminate | now exists t].
  - split; [discriminate|]. intros [_ [t H]]. discriminate.
Qed.

Lemma updateWorkoutAction_returns (data : Actions.UpdateWorkoutInput)
  (w : World) :
  exists (r : Actions.ActionResult) (w' : World),
    updateWorkoutAction data w = (Returned r, w').
Proof.
  unfold Actions.updateWorkoutAction, try_catch.
  match goal with
  | |- context [match ?m w with _ => _ end] => destruct (m w) as [[r|e] w']
  end.
  - eauto.
  - unfold bind, console_error, ret. eauto.
Qed.

(** C3, as the code has it.  An input of [createWorkoutAction] that the
    schema rejects (a name that is empty or longer than 255, a [startedAt]
    that [Date.parse] cannot read) makes the action throw the [ZodError]
    of the schema before anything else happens: the world is left as it
    was, and the error lists one message for each offending field, under
    the path of that field.  [updateWorkoutAction] validates nothing and
    never throws. *)
Theorem createWorkoutAction_throws_field_issues
  (input : Actions.CreateWorkoutInput) (w : World) :
  ((exists s, Actions.name input = Some s
              /\ (String.length s < 1 \/ 255 < String.length s)%nat)
   \/ Date_parse (Actions.startedAt input) = None) ->
  exists issues : list Actions.ZodIssue,
    createWorkoutAction input w = (Thrown (Actions.mkZodError issues), w)
    /\ issues <> []
    /\ (forall s, Actions.name input = Some s ->
                  (String.length s < 1)%nat ->
                  In (Actions.mkIssue ["name"%string]
                                      "Workout name is required") issues)
    /\ (forall s, Actions.name input = Some s ->
                  (255 < String.length s)%nat ->
                  In (Actions.mkIssue ["name"%string] "Name is too long")
                     issues)
    /\ (Date_parse (Actions.startedAt input) = None ->
        In (Actions.mkIssue ["startedAt"%string] "Invalid date format")
           issues)
    /\ Forall (fun i => Actions.path i = ["name"%string]
                        \/ Actions.path i = ["startedAt"%string]) issues
    /\ forall data w0, exists r w1,
         updateWorkoutAction data w0 = (Returned r, w1).
Proof.
  intros Hbad. exists (schema input).
  assert (Hne : schema input <> []).
  { intros Hnil. apply schema_passes_iff in Hnil.
    destruct Hnil as [Hname [t Ht]].
    destruct Hbad as [(s & Hs & Hlen)|Hd]; [|congruence].
    specialize (Hname s Hs). lia. }
  split; [now apply createWorkoutAction_rejects|].
  split; [exact Hne|].
  unfold Actions.createWorkoutSchema, Actions.name_issues,
    Actions.startedAt_issues.
  repeat split.
  - intros s Hs Hlen. rewrite Hs. apply in_or_app. left.
    apply in_or_app. left.
    apply Nat.ltb_lt in Hlen. rewrite Hlen. now left.
  - intros s Hs Hlen. rewrite Hs. apply in_or_app. left.
    apply in_or_app. right.
    apply Nat.ltb_lt in Hlen. rewrite Hlen. now left.
  - intros Hd. rewrite Hd. apply in_or_app. right. now left.
  - apply Forall_app. split.
    + destruct (Actions.name input) as [s|]; [|constructor].
      apply Forall_app. split.
      * destruct (Nat.ltb _ _); repeat constructor.
      * destruct (Nat.ltb _ _); repeat constructor.
    + destruct (Date_parse _); [constructor|].
      constructor; [now right | constructor].
  - intros data w0. apply updateWorkoutAction_returns.
Qed.

End Validation.

Lemma createWorkoutAction_throws_field_issues_witness :
  exists issues : list Actions.ZodIssue,
    Actions.createWorkoutAction Sample.Date_parse
      (Actions.mkCreateInput (Some "Leg Day"%string) "tomorrow")
      (Sample.world (Some "u1"%string) [])
    = (Thrown (Actions.mkZodError issues),
       Sample.world (Some "u1"%string) [])
    /\ In (Actions.mkIssue ["startedAt"%string] "Invalid date format") issues.
Proof.
  destruct (createWorkoutAction_throws_field_issues Sample.Date_parse
              (Actions.mkCreateInput (Some "Leg Day"%string) "tomorrow")
              (Sample.world (Some "u1"%string) [])
              (or_intror eq_refl))
    as (issues & Hrun & _ & _ & _ & Hdate & _).
  exists issues. split; [exact Hrun | exact (Hdate eq_refl)].
Defined.

(** C3 as the specification states it fails: [createWorkoutAction] with an
    empty name does not return a failure result, it throws. *)
Lemma createWorkoutAction_empty_name_is_thrown :
  Actions.createWorkoutAction Sample.Date_parse
    (Actions.mkCreateInput (Some ""%string) "2025-01-10T08:00:00Z")
    (Sample.world (Some "u1"%string) [])
  = (Thrown (Actions.mkZodError
               [Actions.mkIssue ["name"%string] "Workout name is required"]),
     Sample.world (Some "u1"%string) [])
  /\ ~ exists r : Actions.ActionResult,
         fst (Actions.createWorkoutAction Sample.Date_parse
                (Actions.mkCreateInput (Some ""%string) "2025-01-10T08:00:00Z")
                (Sample.world (Some "u1"%string) []))
         = Returned r.
Proof.
  split; [reflexivity|]. intros [r H]. vm_compute in H. discriminate H.
Qed.

(** ** What the helpers write *)

Lemma createWorkout_effect (data : SrcData.CreateWorkoutData)
  (w w' : World) (o : Outcome JsThrown (option Workout.t)) :
  SrcData.createWorkout data w = (o, w') ->
  (db w' = db w /\ exists e, o = Thrown e)
  \/ exists r : Workout.t,
       o = Returned (Some r)
       /\ Workout.userId r = SrcData.c_userId data
       /\ Workout.name r = SrcData.c_name data
       /\ workouts (db w') = workouts (db w) ++ [r]
       /\ same_children (db w) (db w').
Proof.
  unfold SrcData.createWorkout, bind, storage, insert_workout.
  destruct (hd None (faults w)) as [f|]; simpl.
  - intros [= <- <-]. left. split; [reflexivity | now exists f].
  - destruct (workout_row_fits _); simpl; intros [= <- <-].
    + right. eexists. repeat split.
    + left. split; [reflexivity | now eexists].
Qed.

Lemma updateWorkout_effect (id : Z) (data : Data.UpdateData)
  (w w' : World) (U : string) (o : Outcome JsThrown (option Workout.t)) :
  authUserId w = Some U -> U <> ""%string ->
  Data.updateWorkout id data w = (o, w') ->
  (db w' = db w /\ exists e, o = Thrown e)
  \/ exists e : Workout.t,
       In e (workouts (db w))
       /\ Workout.id e = id /\ Workout.userId e = U
       /\ workouts (db w')
          = map (fun r => if Workout.id r =? id
                          then Data.apply_update data (clock w) r else r)
                (workouts (db w))
       /\ same_children (db w) (db w').
Proof.
  intros Hauth HU.
  unfold Data.updateWorkout, bind, auth. rewrite Hauth.
  rewrite (signed_in U HU), (signed_in_or_else U HU).
  unfold storage at 1.
  destruct (hd None (faults w)) as [f|]; simpl.
  { intros [= <- <-]. left. split; [reflexivity | now exists f]. }
  destruct (first (select_workouts (SrcData.owned id U) (db w)))
    as [e|] eqn:He; simpl.
  2: { intros [= <- <-]. left. split; [reflexivity | now eexists]. }
  destruct (Data.encodable data); simpl.
  2: { intros [= <- <-]. left. split; [reflexivity | now eexists]. }
  unfold storage, update_workouts; simpl.
  destruct (hd None (tl (faults w))) as [f|]; simpl.
  { intros [= <- <-]. left. split; [reflexivity | now exists f]. }
  destruct (forallb workout_row_fits _); simpl; intros [= <- <-].
  - right. exists e. apply first_In in He. unfold select_workouts in He.
    apply filter_In in He. destruct He as [Hin Ho].
    apply owned_spec in Ho. destruct Ho as [Hid Hu].
    repeat split; assumption || reflexivity.
  - left. split; [reflexivity | now eexists].
Qed.

(** ** The actions *)

Section ActionProperties.

Variable Date_parse : string -> option Date.

Local Abbreviation schema := (Actions.createWorkoutSchema Date_parse).
Local Abbreviation createWorkoutAction :=
  (Actions.createWorkoutAction Date_parse).
Local Abbreviation updateWorkoutAction :=
  (Actions.updateWorkoutAction Date_parse).

Lemma createWorkoutAction_signed_out (input : Actions.CreateWorkoutInput)
  (w : World) :
  falsy (authUserId w) = true -> schema input = [] ->
  createWorkoutAction input w
  = (Returned (Actions.Failure "Unauthorized"), w).
Proof.
  intros Hout Hok. unfold Actions.createWorkoutAction, bind.
  rewrite (parse_passes Date_parse input w Hok). unfold auth.
  rewrite Hout. reflexivity.
Qed.

Lemma createWorkoutAction_effect (input : Actions.CreateWorkoutInput)
  (w w' : World) (U : string)
  (o : Outcome Actions.ZodError Actions.ActionResult) :
  authUserId w = Some U -> U <> ""%string ->
  createWorkoutAction input w = (o, w') ->
  db w' = db w
  \/ exists W : Workout.t,
       o = Returned (Actions.Success (Some W))
       /\ Workout.userId W = U
       /\ workouts (db w') = workouts (db w) ++ [W]
       /\ same_children (db w) (db w').
Proof.
  intros Hauth HU.
  destruct (list_eq_dec
              (fun a b : Actions.ZodIssue =>
                 ltac:(decide equality;
                       [apply string_dec
                       | apply (list_eq_dec string_dec)]))
              (schema input) []) as [Hok|Hbad].
  2: { rewrite (createWorkoutAction_rejects Date_parse input w Hbad).
       intros [= <- <-]. now left. }
  unfold Actions.createWorkoutAction, bind.
  rewrite (parse_passes Date_parse input w Hok). unfold auth.
  rewrite Hauth, (signed_in U HU), (signed_in_or_else U HU).
  unfold try_catch, Actions.Date_of_string, bind.
  destruct (Date_parse (Actions.startedAt input)) as [t|]; simpl.
  2: { intros [= <- <-]. now left. }
  destruct (SrcData.createWorkout _ w) as [o1 w1] eqn:Hc.
  apply createWorkout_effect in Hc. simpl in Hc.
  destruct Hc as [[Hdb [e ->]]|(W & -> & Hu & _ & Hrows & Hch)]; simpl.
  - intros [= <- <-]. left. exact Hdb.
  - intros [= <- <-]. right. exists W. simpl.
    split; [reflexivity|]. split; [exact Hu|].
    split; [exact Hrows | exact Hch].
Qed.

Lemma updateWorkoutAction_unfold (data : Actions.UpdateWorkoutInput)
  (w : World) :
  updateWorkoutAction data w
  = try_catch
      (workout <- Data.updateWorkout (Actions.workoutId data)
                                     (Actions.updateData Date_parse data) ;;
       revalidatePath "/dashboard" ;;;
       revalidatePath ("/dashboard/workout/"
                       ++ Actions.number_to_string (Actions.workoutId data)) ;;;
       ret (Actions.Success workout))
      (fun error =>
         console_error "Failed to update workout:" error ;;;
         ret (Actions.Failure
                (match error with
                 | ErrorObj message => message
                 | NonError _ => "Failed to update workout"%string
                 end))) w.
Proof. reflexivity. Qed.

Lemma updateWorkoutAction_db (data : Actions.UpdateWorkoutInput) (w : World) :
  db (snd (updateWorkoutAction data w))
  = db (snd (Data.updateWorkout (Actions.workoutId data)
                                (Actions.updateData Date_parse data) w)).
Proof.
  rewrite updateWorkoutAction_unfold. unfold try_catch, bind.
  destruct (Data.updateWorkout _ _ w) as [[r|e] w1]; reflexivity.
Qed.

Lemma updateWorkoutAction_signed_out (data : Actions.UpdateWorkoutInput)
  (w : World) :
  falsy (authUserId w) = true ->
  exists w' : World,
    updateWorkoutAction data w
    = (Returned (Actions.Failure "Unauthorized"), w')
    /\ db w' = db w /\ revalidated w' = revalidated w.
Proof.
  intros Hout. rewrite updateWorkoutAction_unfold.
  unfold try_catch, bind, Data.updateWorkout, bind, auth.
  rewrite Hout. simpl. eexists. split; [reflexivity|]. split; reflexivity.
Qed.

Lemma updateWorkoutAction_thrown (data : Actions.UpdateWorkoutInput)
  (w w1 : World) (f : JsThrown) :
  Data.updateWorkout (Actions.workoutId data) (Actions.updateData Date_parse data) w
  = (Thrown f, w1) ->
  exists w' : World,
    updateWorkoutAction data w
    = (Returned (Actions.Failure
                   (match f with
                    | ErrorObj message => message
                    | NonError _ => "Failed to update workout"%string
                    end)), w')
    /\ db w' = db w1
    /\ In ("Failed to update workout:"%string, f) (console w').
Proof.
  intros H. rewrite updateWorkoutAction_unfold.
  unfold try_catch, bind at 1. rewrite H.
  unfold bind, console_error, ret. eexists. split; [reflexivity|].
  split; [reflexivity|]. simpl. apply in_or_app. right. now left.
Qed.

Lemma first_filter_some {A} (p : A -> bool) (l : list A) (a : A) :
  In a l -> p a = true -> exists b, first (filter p l) = Some b.
Proof.
  induction l as [|x l IH]; simpl; intros Hin Hp; [contradiction|].
  destruct (p x) eqn:E; [now exists x|].
  destruct Hin as [->|Hin]; [congruence | now apply IH].
Qed.

(** C2, as the code has it.  Neither action takes an owner from its
    caller.  With a resolved identity U, whatever [createWorkoutAction]
    adds to the table is one row owned by U, and whatever
    [updateWorkoutAction] changes leaves every row of another owner in place
    and yields only rows that were there or are owned by U (the helper it
    calls resolves the identity itself).  Without an identity nothing is
    written: [updateWorkoutAction] returns the failure "Unauthorized", and
    so does [createWorkoutAction] on an input that passes validation; on an
    input that fails validation it throws the validation error instead,
    since it validates before it asks for the identity. *)
Theorem actions_scope_writes_to_resolved_identity (w : World) :
  (forall U : string,
      authUserId w = Some U -> U <> ""%string ->
      (forall input o w',
          createWorkoutAction input w = (o, w') ->
          db w' = db w
          \/ exists W : Workout.t,
               o = Returned (Actions.Success (Some W))
               /\ Workout.userId W = U
               /\ workouts (db w') = workouts (db w) ++ [W]
               /\ same_children (db w) (db w'))
      /\ (pk_unique (db w) ->
          forall data o w',
            updateWorkoutAction data w = (o, w') ->
            same_children (db w) (db w')
            /\ (forall x, In x (workouts (db w)) ->
                          Workout.userId x <> U -> In x (workouts (db w')))
            /\ (forall x, In x (workouts (db w')) ->
                          In x (workouts (db w)) \/ Workout.userId x = U)))
  /\ (falsy (authUserId w) = true ->
      (forall input,
          schema input = [] ->
          createWorkoutAction input w
          = (Returned (Actions.Failure "Unauthorized"), w))
      /\ (forall input,
             schema input <> [] ->
             createWorkoutAction input w
             = (Thrown (Actions.mkZodError (schema input)), w))
      /\ (forall data,
             exists w' : World,
               updateWorkoutAction data w
               = (Returned (Actions.Failure "Unauthorized"), w')
               /\ db w' = db w /\ revalidated w' = revalidated w)).
Proof.
  split.
  - intros U Hauth HU. split.
    + intros input o w' H.
      exact (createWorkoutAction_effect input w w' U o Hauth HU H).
    + intros PK data o w' H.
      assert (Hdb : db w' = db (snd (Data.updateWorkout
                                       (Actions.workoutId data)
                                       (Actions.updateData Date_parse data) w))).
      { rewrite <- updateWorkoutAction_db. now rewrite H. }
      destruct (Data.updateWorkout _ _ w) as [o1 w1] eqn:H1.
      simpl in Hdb. rewrite Hdb.
      apply (updateWorkout_effect _ _ _ _ U _ Hauth HU) in H1.
      destruct H1 as [[-> _]|(e & He & Hid & Hu & Hrows & Hch)].
      * split; [repeat split|]. split; [tauto|]. intros x Hx. now left.
      * split; [exact Hch|]. rewrite Hrows. split.
        -- intros x Hx Hxu. apply in_map_iff. exists x. split; [|exact Hx].
           destruct (Workout.id x =? Actions.workoutId data) eqn:E; auto.
           apply Z.eqb_eq in E. exfalso. apply Hxu.
           assert (x = e) by (eapply pk_row_eq; eauto; congruence).
           now subst x.
        -- intros x Hx. apply in_map_iff in Hx. destruct Hx as (r & <- & Hr).
           destruct (Workout.id r =? Actions.workoutId data) eqn:E;
             [|now left].
           apply Z.eqb_eq in E. right.
           assert (r = e) by (eapply pk_row_eq; eauto; congruence).
           subst r. exact Hu.
  - intros Hout. split; [|split].
    + intros input Hok. now apply createWorkoutAction_signed_out.
    + intros input Hbad. now apply createWorkoutAction_rejects.
    + intros data. now apply updateWorkoutAction_signed_out.
Qed.

(** What the two catch clauses make of a failed round trip.  For a
    signed-in caller, a round trip that
    fails with [f] makes [createWorkoutAction] return the fixed text
    "Failed to create workout", whatever [f] is.  [updateWorkoutAction]
    returns the message of [f] itself when [f] is an [Error] object, and
    the fixed text "Failed to update workout" only when it is not; this
    holds for its ownership read and for its update alike.  In each case
    the tables are left as they were and [f] is logged. *)
Theorem storage_failure_texts (w : World) (U : string) (f : JsThrown)
  (rest : list (option JsThrown)) :
  authUserId w = Some U -> U <> ""%string ->
  (forall input,
      schema input = [] -> faults w = Some f :: rest ->
      exists w' : World,
        createWorkoutAction input w
        = (Returned (Actions.Failure "Failed to create workout"), w')
        /\ db w' = db w
        /\ In ("Failed to create workout:"%string, f) (console w'))
  /\ (forall data,
         faults w = Some f :: rest ->
         exists w' : World,
           updateWorkoutAction data w
           = (Returned (Actions.Failure
                          (match f with
                           | ErrorObj message => message
                           | NonError _ => "Failed to update workout"%string
                           end)), w')
           /\ db w' = db w
           /\ In ("Failed to update workout:"%string, f) (console w'))
  /\ (forall data W,
         faults w = None :: Some f :: rest ->
         In W (workouts (db w)) ->
         Workout.id W = Actions.workoutId data -> Workout.userId W = U ->
         Data.encodable (Actions.updateData Date_parse data) = true ->
         exists w' : World,
           updateWorkoutAction data w
           = (Returned (Actions.Failure
                          (match f with
                           | ErrorObj message => message
                           | NonError _ => "Failed to update workout"%string
                           end)), w')
           /\ db w' = db w
           /\ In ("Failed to update workout:"%string, f) (console w')).
Proof.
  intros Hauth HU. split; [|split].
  - intros input Hok Hf.
    destruct (proj1 (schema_passes_iff Date_parse input) Hok) as [_ [t Ht]].
    unfold Actions.createWorkoutAction, bind.
    rewrite (parse_passes Date_parse input w Hok). unfold auth.
    rewrite Hauth, (signed_in U HU), (signed_in_or_else U HU).
    unfold try_catch, Actions.Date_of_string. rewrite Ht.
    unfold SrcData.createWorkout, bind.
    rewrite (storage_down _ w f rest Hf).
    unfold console_error, ret. eexists. split; [reflexivity|].
    split; [reflexivity|]. simpl. apply in_or_app. right. now left.
  - intros data Hf.
    assert (H : Data.updateWorkout (Actions.workoutId data)
                  (Actions.updateData Date_parse data) w
                = (Thrown f, with_faults w rest)).
    { unfold Data.updateWorkout, bind, auth.
      rewrite Hauth, (signed_in U HU).
      now rewrite (storage_down _ w f rest Hf). }
    destruct (updateWorkoutAction_thrown data w _ f H) as (w' & Hr & Hdb & Hc).
    exists w'. split; [exact Hr|]. split; [exact Hdb | exact Hc].
  - intros data W Hf HW Hid Hu Henc.
    assert (H : Data.updateWorkout (Actions.workoutId data)
                  (Actions.updateData Date_parse data) w
                = (Thrown f, with_faults w rest)).
    { unfold Data.updateWorkout, bind, auth.
      rewrite Hauth, (signed_in U HU), (signed_in_or_else U HU).
      unfold storage at 1. rewrite Hf. simpl.
      destruct (first_filter_some
                  (SrcData.owned (Actions.workoutId data) U)
                  (workouts (db w)) W HW) as [b Hb].
      { now apply owned_spec. }
      unfold select_workouts. rewrite Hb. unfold new_Date. simpl.
      rewrite Henc. unfold storage. simpl. destruct w; reflexivity. }
    destruct (updateWorkoutAction_thrown data w _ f H) as (w' & Hr & Hdb & Hc).
    exists w'. split; [exact Hr|]. split; [exact Hdb | exact Hc].
Qed.

(** What becomes of a blank name.  On tables whose serial is ahead of
    every id, a workout created without a name is stored with a null
    name: no label is generated when it is created.  The dashboard card
    shows "Untitled Workout" for a null or empty name.  An empty name does
    not reach the table: the schema rejects it. *)
Theorem blank_name_is_stored_null (w : World)
  (input : Actions.CreateWorkoutInput) (U : string) (t : Date) :
  authUserId w = Some U -> U <> ""%string -> varchar255 U = true ->
  faults w = [] -> seq_fresh (db w) ->
  Date_parse (Actions.startedAt input) = Some t ->
  (Actions.name input = None ->
   exists (W : Workout.t) (w' : World),
     createWorkoutAction input w
     = (Returned (Actions.Success (Some W)), w')
     /\ Workout.name W = None
     /\ In W (workouts (db w'))
     /\ cardTitle W = "Untitled Workout"%string)
  /\ (Actions.name input = Some ""%string ->
      createWorkoutAction input w
      = (Thrown (Actions.mkZodError
                   [Actions.mkIssue ["name"%string]
                                    "Workout name is required"]), w))
  /\ (forall r : Workout.t,
         Workout.name r = None \/ Workout.name r = Some ""%string ->
         cardTitle r = "Untitled Workout"%string).
Proof.
  intros Hauth HU HfitU Hf _ Ht. split; [|split].
  - intros Hname.
    assert (Hok : schema input = []).
    { unfold Actions.createWorkoutSchema, Actions.name_issues,
        Actions.startedAt_issues. now rewrite Hname, Ht. }
    unfold Actions.createWorkoutAction, bind.
    rewrite (parse_passes Date_parse input w Hok). unfold auth.
    rewrite Hauth, (signed_in U HU), (signed_in_or_else U HU).
    unfold try_catch, Actions.Date_of_string. rewrite Ht.
    unfold SrcData.createWorkout, bind.
    rewrite storage_up by exact Hf.
    unfold insert_workout, workout_row_fits; simpl.
    rewrite HfitU, Hname; simpl.
    eexists. eexists. split; [reflexivity|]. simpl.
    split; [reflexivity|]. split; [|reflexivity].
    apply in_or_app. right. now left.
  - intros Hname.
    assert (Hbad : schema input <> []).
    { unfold Actions.createWorkoutSchema, Actions.name_issues.
      rewrite Hname. simpl. discriminate. }
    rewrite (createWorkoutAction_rejects Date_parse input w Hbad).
    unfold Actions.createWorkoutSchema, Actions.name_issues,
      Actions.startedAt_issues. now rewrite Hname, Ht.
  - intros r [H|H]; unfold cardTitle; rewrite H; reflexivity.
Qed.

End ActionProperties.

Lemma actions_scope_writes_to_resolved_identity_witness :
  Actions.createWorkoutAction Sample.Date_parse
    (Actions.mkCreateInput None "2025-01-10T08:00:00Z")
    (Sample.world None [])
  = (Returned (Actions.Failure "Unauthorized"), Sample.world None []).
Proof.
  apply (proj1 (proj2 (actions_scope_writes_to_resolved_identity
                         Sample.Date_parse (Sample.world None []))
                      eq_refl)).
  reflexivity.
Defined.

(** C2 as the specification states it fails: without an identity,
    [createWorkoutAction] on an input that fails validation does not fail
    with "Unauthorized", it throws the validation error. *)
Lemma createWorkoutAction_signed_out_invalid_is_thrown :
  Actions.createWorkoutAction Sample.Date_parse
    (Actions.mkCreateInput (Some "Leg Day"%string) "tomorrow")
    (Sample.world None [])
  = (Thrown (Actions.mkZodError
               [Actions.mkIssue ["startedAt"%string] "Invalid date format"]),
     Sample.world None [])
  /\ fst (Actions.createWorkoutAction Sample.Date_parse
            (Actions.mkCreateInput (Some "Leg Day"%string) "tomorrow")
            (Sample.world None []))
     <> Returned (Actions.Failure "Unauthorized").
Proof. split; [reflexivity|]. vm_compute. discriminate. Qed.

Lemma storage_failure_texts_witness :
  exists w' : World,
    Actions.createWorkoutAction Sample.Date_parse
      (Actions.mkCreateInput None "2025-01-10T08:00:00Z")
      (Sample.world (Some "u1"%string) [Some Sample.down])
    = (Returned (Actions.Failure "Failed to create workout"), w')
    /\ db w' = Sample.db0.
Proof.
  destruct (proj1 (storage_failure_texts Sample.Date_parse
                     (Sample.world (Some "u1"%string) [Some Sample.down])
                     "u1"%string Sample.down [] eq_refl
                     ltac:(discriminate))
                  (Actions.mkCreateInput None "2025-01-10T08:00:00Z")
                  eq_refl eq_refl)
    as (w' & Hrun & Hdb & _).
  exists w'. split; [exact Hrun | exact Hdb].
Defined.

(** C4.  The code breaks the claim in [updateWorkoutAction].  With the
    store down, the error text that it returns to the caller is the
    driver's own message, where [createWorkoutAction] in the same world
    returns its fixed text. *)
Lemma updateWorkoutAction_surfaces_driver_message :
  fst (Actions.updateWorkoutAction Sample.Date_parse
         (Actions.mkUpdateInput 1 (Some "Legs"%string) None None)
         (Sample.world (Some "u1"%string) [Some Sample.down]))
  = Returned (Actions.Failure "connect ECONNREFUSED 127.0.0.1:5432")
  /\ Sample.down = ErrorObj "connect ECONNREFUSED 127.0.0.1:5432"
  /\ fst (Actions.createWorkoutAction Sample.Date_parse
            (Actions.mkCreateInput (Some "Legs"%string)
                                   "2025-01-10T08:00:00Z")
            (Sample.world (Some "u1"%string) [Some Sample.down]))
     = Returned (Actions.Failure "Failed to create workout").
Proof. repeat split. Qed.

Lemma blank_name_is_stored_null_witness :
  exists (W : Workout.t) (w' : World),
    Actions.createWorkoutAction Sample.Date_parse
      (Actions.mkCreateInput None "2025-01-10T08:00:00Z")
      (Sample.world (Some "u1"%string) [])
    = (Returned (Actions.Success (Some W)), w')
    /\ Workout.name W = None
    /\ cardTitle W = "Untitled Workout"%string.
Proof.
  destruct (proj1 (blank_name_is_stored_null Sample.Date_parse
                     (Sample.world (Some "u1"%string) [])
                     (Actions.mkCreateInput None "2025-01-10T08:00:00Z")
                     "u1"%string Sample.t0 eq_refl ltac:(discriminate)
                     eq_refl eq_refl sample_fresh eq_refl)
                  eq_refl)
    as (W & w' & Hrun & Hname & _ & Htitle).
  exists W, w'. split; [exact Hrun|]. split; [exact Hname | exact Htitle].
Defined.

(** C9.  The code breaks the claim.  The workout that a signed-in user
    creates with the name left out, as the new-workout form sends a blank
    name field, is returned and stored with a null name: nothing generates
    a label for it.  Only the dashboard card puts "Untitled Workout" in
    the place of the missing name when it renders the row. *)
Lemma created_without_name_is_stored_null :
  let run :=
    Actions.createWorkoutAction Sample.Date_parse
      (Actions.mkCreateInput (Pages.blank_to_undefined ""%string)
                             "2025-01-10T08:00:00Z")
      (Sample.world (Some "u1"%string) []) in
  fst run
  = Returned (Actions.Success
                (Some (Workout.mk 4 "u1" None Sample.t0 None
                                  (Sample.t0 + 7200000)
                                  (Sample.t0 + 7200000))))
  /\ map Workout.name (workouts (db (snd run)))
     = [Some "Leg Day"%string; None; Some "Push"%string; None]
  /\ map cardTitle (workouts (db (snd run)))
     = ["Leg Day"%string; "Untitled Workout"%string; "Push"%string;
        "Untitled Workout"%string].
Proof. repeat split. Qed.

(** * Further properties of the helpers, the actions and the pages *)

(** ** What one call of a helper of src/data/workouts.ts does *)

Lemma update_workouts_miss (p : Workout.t -> bool)
  (set : Workout.t -> Workout.t) (d : Db) :
  (forall r, In r (workouts d) -> p r = false) ->
  update_workouts p set d = Returned ([], d).
Proof.
  intros H. unfold update_workouts. rewrite (filter_none p _ H). simpl.
  assert (E : map (fun r => if p r then set r else r) (workouts d)
              = workouts d).
  { erewrite map_ext_in; [apply map_id|].
    intros r Hr. simpl. now rewrite (H r Hr). }
  rewrite E. destruct d; reflexivity.
Qed.

Lemma createWorkout_cases (data : SrcData.CreateWorkoutData)
  (w w' : World) (o : Outcome JsThrown (option Workout.t)) :
  SrcData.createWorkout data w = (o, w') ->
  (db w' = db w /\ exists e, o = Thrown e)
  \/ (o = Returned
            (Some (Workout.mk (workouts_id_seq (db w))
                     (SrcData.c_userId data) (SrcData.c_name data)
                     (SrcData.c_startedAt data) None (clock w) (clock w)))
      /\ db w'
         = mkDb (exercises (db w))
                (workouts (db w)
                 ++ [Workout.mk (workouts_id_seq (db w))
                       (SrcData.c_userId data) (SrcData.c_name data)
                       (SrcData.c_startedAt data) None (clock w) (clock w)])
                (workoutExercises (db w)) (sets (db w))
                (workouts_id_seq (db w) + 1)).
Proof.
  unfold SrcData.createWorkout, bind, storage, insert_workout.
  destruct (hd None (faults w)) as [f|]; simpl.
  - intros [= <- <-]. left. split; [reflexivity | now exists f].
  - destruct (workout_row_fits _); simpl; intros [= <- <-].
    + right. split; reflexivity.
    + left. split; [reflexivity | now eexists].
Qed.

Lemma src_updateWorkout_cases (id : Z) (U : string)
  (data : SrcData.UpdateWorkoutData) (w w' : World)
  (o : Outcome JsThrown (option Workout.t)) :
  SrcData.updateWorkout id U data w = (o, w') ->
  (db w' = db w /\ exists e, o = Thrown e)
  \/ (o = Returned
            (first (map (SrcData.apply_update data (clock w))
                        (filter (SrcData.owned id U) (workouts (db w)))))
      /\ db w'
         = mkDb (exercises (db w))
                (map (fun r => if SrcData.owned id U r
                               then SrcData.apply_update data (clock w) r
                               else r)
                     (workouts (db w)))
                (workoutExercises (db w)) (sets (db w))
                (workouts_id_seq (db w))).
Proof.
  unfold SrcData.updateWorkout, bind, new_Date, storage, update_workouts.
  destruct (hd None (faults w)) as [f|]; simpl.
  - intros [= <- <-]. left. split; [reflexivity | now exists f].
  - destruct (forallb workout_row_fits _); simpl; intros [= <- <-].
    + right. split; reflexivity.
    + left. split; [reflexivity | now eexists].
Qed.

Lemma src_deleteWorkout_cases (id : Z) (U : string) (w w' : World)
  (o : Outcome JsThrown (option Workout.t)) :
  SrcData.deleteWorkout id U w = (o, w') ->
  (db w' = db w /\ exists e, o = Thrown e)
  \/ (o = Returned (first (filter (SrcData.owned id U) (workouts (db w))))
      /\ db w' = snd (delete_workouts (SrcData.owned id U) (db w))).
Proof.
  unfold SrcData.deleteWorkout, bind, storage.
  destruct (hd None (faults w)) as [f|]; simpl.
  - intros [= <- <-]. left. split; [reflexivity | now exists f].
  - intros [= <- <-]. right. split; reflexivity.
Qed.

(** X1.  When the store answers, [getUserWorkouts(userId)] of
    src/data/workouts.ts returns the rows of that user and no other row,
    each once, most recent start first, and leaves the world as it was. *)
Theorem getUserWorkouts_lists_the_rows_of_the_user (w : World) (U : string) :
  faults w = [] ->
  exists rows : list Workout.t,
    SrcData.getUserWorkouts U w = (Returned rows, w)
    /\ Permutation rows
         (filter (fun r => String.eqb (Workout.userId r) U)
                 (workouts (db w)))
    /\ (forall r, In r rows <->
                  In r (workouts (db w)) /\ Workout.userId r = U)
    /\ StronglySorted
         (fun a b => Workout.startedAt b <= Workout.startedAt a) rows.
Proof.
  intros Hf. unfold SrcData.getUserWorkouts.
  rewrite storage_up by exact Hf. rewrite with_db_same.
  eexists. split; [reflexivity|]. unfold select_workouts.
  pose proof (order_by_perm (desc Workout.startedAt)
                (filter (fun r => String.eqb (Workout.userId r) U)
                        (workouts (db w)))) as Hperm.
  split; [exact Hperm|]. split.
  - intros r. split.
    + intros Hr. apply (Permutation_in _ Hperm) in Hr.
      apply filter_In in Hr. destruct Hr as [Hin Hu].
      apply String.eqb_eq in Hu. tauto.
    + intros [Hin Hu]. apply (Permutation_in _ (Permutation_sym Hperm)).
      apply filter_In. split; [exact Hin | now apply String.eqb_eq].
  - apply (order_by_desc_sorted Workout.startedAt).
Qed.

Lemma getUserWorkouts_lists_the_rows_of_the_user_witness :
  exists rows : list Workout.t,
    SrcData.getUserWorkouts "u1" (Sample.world None [])
    = (Returned rows, Sample.world None [])
    /\ (forall r, In r rows <->
                  In r (workouts Sample.db0)
                  /\ Workout.userId r = "u1"%string).
Proof.
  destruct (getUserWorkouts_lists_the_rows_of_the_user
              (Sample.world None []) "u1"%string eq_refl)
    as (rows & Hrun & _ & Hin & _).
  exists rows. split; [exact Hrun | exact Hin].
Defined.

(** X2.  [updateWorkout(id, userId, data)] never touches a row of another
    owner, whatever the fate of the round trip; and when no row has that id
    and that owner (the id is unknown, or the workout is someone else's) it
    returns no record and changes nothing. *)
Theorem updateWorkout_leaves_other_owners_alone (w : World) (id : Z)
  (U : string) (data : SrcData.UpdateWorkoutData) :
  (forall o w',
      SrcData.updateWorkout id U data w = (o, w') ->
      forall r, In r (workouts (db w)) -> Workout.userId r <> U ->
                In r (workouts (db w')))
  /\ (faults w = [] ->
      (forall r, In r (workouts (db w)) ->
                 ~ (Workout.id r = id /\ Workout.userId r = U)) ->
      SrcData.updateWorkout id U data w = (Returned None, w)).
Proof.
  split.
  - intros o w' H r Hr Hu.
    apply src_updateWorkout_cases in H. destruct H as [[-> _]|[_ ->]].
    + exact Hr.
    + simpl. apply in_map_iff. exists r. split; [|exact Hr].
      destruct (SrcData.owned id U r) eqn:E; [|reflexivity].
      apply owned_spec in E. tauto.
  - intros Hf Hnone. unfold SrcData.updateWorkout, bind, new_Date.
    rewrite storage_up by exact Hf.
    rewrite update_workouts_miss.
    + now rewrite with_db_same.
    + intros r Hr. destruct (SrcData.owned id U r) eqn:E; auto.
      apply owned_spec in E. exfalso. now apply (Hnone r Hr).
Qed.

Lemma updateWorkout_leaves_other_owners_alone_witness :
  SrcData.updateWorkout 3 "u1" (SrcData.mkUpdate (Some "Mine"%string) None)
                        (Sample.world None [])
  = (Returned None, Sample.world None []).
Proof.
  apply (proj2 (updateWorkout_leaves_other_owners_alone
                  (Sample.world None []) 3 "u1"%string
                  (SrcData.mkUpdate (Some "Mine"%string) None))).
  - reflexivity.
  - simpl. intros r [<-|[<-|[<-|[]]]] [H1 H2]; simpl in *; discriminate.
Defined.

Lemma not_owned_iff (l : list Workout.t) (W r : Workout.t) :
  NoDup (map Workout.id l) -> In W l -> In r l ->
  (negb (SrcData.owned (Workout.id W) (Workout.userId W) r) = true
   <-> Workout.id r <> Workout.id W).
Proof.
  intros PK HW Hr. rewrite negb_true_iff. split.
  - intros Hno E.
    assert (r = W) by (eapply pk_row_eq; eauto). subst r.
    assert (SrcData.owned (Workout.id W) (Workout.userId W) W = true)
      by now apply owned_spec.
    congruence.
  - intros Hne. destruct (SrcData.owned _ _ r) eqn:E; [|reflexivity].
    apply owned_spec in E. tauto.
Qed.

(** X3.  [deleteWorkout] on a workout of the owner removes that workout,
    its workout exercises and their sets, and nothing else: every other
    workout, every workout exercise of another workout, every set of
    another workout exercise and the exercise library stay. *)
Theorem deleteWorkout_removes_nothing_else (w : World) (W : Workout.t) :
  pk_unique (db w) -> faults w = [] -> In W (workouts (db w)) ->
  exists w' : World,
    SrcData.deleteWorkout (Workout.id W) (Workout.userId W) w
    = (Returned (Some W), w')
    /\ (forall r, In r (workouts (db w')) <->
                  In r (workouts (db w)) /\ Workout.id r <> Workout.id W)
    /\ (forall e, In e (workoutExercises (db w')) <->
                  In e (workoutExercises (db w))
                  /\ WorkoutExercise.workoutId e <> Workout.id W)
    /\ (forall s, In s (sets (db w')) <->
                  In s (sets (db w))
                  /\ forall e, In e (workoutExercises (db w)) ->
                               WorkoutExercise.workoutId e = Workout.id W ->
                               SetRow.workoutExerciseId s
                               <> WorkoutExercise.id e)
    /\ exercises (db w') = exercises (db w).
Proof.
  intros PK Hf HW.
  unfold SrcData.deleteWorkout, bind.
  rewrite storage_up by exact Hf. unfold delete_workouts.
  rewrite (select_own_row _ W PK HW). simpl.
  eexists. split; [reflexivity|]. simpl.
  split; [|split; [|split; [|reflexivity]]].
  - intros r. rewrite filter_In. split.
    + intros [Hr Hn]. split; [exact Hr|].
      now apply (not_owned_iff _ W r PK HW Hr).
    + intros [Hr Hn]. split; [exact Hr|].
      now apply (not_owned_iff _ W r PK HW Hr).
  - intros e. rewrite filter_In, orb_false_r, negb_true_iff, Z.eqb_neq.
    reflexivity.
  - intros s. rewrite filter_In, negb_true_iff. split.
    + intros [Hs Hm]. split; [exact Hs|]. intros e He Ew E.
      assert (Hin : mem (SetRow.workoutExerciseId s)
                      (map WorkoutExercise.id
                         (filter (fun e0 =>
                                    (WorkoutExercise.workoutId e0
                                     =? Workout.id W) || false)
                                 (workoutExercises (db w)))) = true).
      { apply mem_spec. rewrite E. apply in_map. apply filter_In.
        split; [exact He|]. now rewrite Ew, Z.eqb_refl. }
      congruence.
    + intros [Hs Hall]. split; [exact Hs|].
      destruct (mem _ _) eqn:Hm; [|reflexivity].
      apply mem_spec in Hm. apply in_map_iff in Hm.
      destruct Hm as (e & Eid & He). apply filter_In in He.
      destruct He as [He Ew]. rewrite orb_false_r in Ew.
      apply Z.eqb_eq in Ew. exfalso.
      now apply (Hall e He Ew).
Qed.

Lemma deleteWorkout_removes_nothing_else_witness :
  exists w' : World,
    SrcData.deleteWorkout 1 "u1" (Sample.world None [])
    = (Returned (Some Sample.legDay), w')
    /\ (forall r, In r (workouts (db w')) <->
                  In r (workouts Sample.db0) /\ Workout.id r <> 1).
Proof.
  destruct (deleteWorkout_removes_nothing_else
              (Sample.world None []) Sample.legDay
              sample_pk eq_refl (or_introl eq_refl))
    as (w' & Hrun & Hrows & _).
  exists w'. split; [exact Hrun | exact Hrows].
Defined.

(** X4.  After [deleteWorkout] has deleted a workout, [getWorkout] with the
    same id and owner finds no record, and a second [deleteWorkout] returns
    no record and changes nothing. *)
Theorem deleted_workout_is_gone (w : World) (W : Workout.t) :
  pk_unique (db w) -> faults w = [] -> In W (workouts (db w)) ->
  exists w' : World,
    SrcData.deleteWorkout (Workout.id W) (Workout.userId W) w
    = (Returned (Some W), w')
    /\ SrcData.getWorkout (Workout.id W) (Workout.userId W) w'
       = (Returned None, w')
    /\ SrcData.deleteWorkout (Workout.id W) (Workout.userId W) w'
       = (Returned None, w').
Proof.
  intros PK Hf HW.
  unfold SrcData.deleteWorkout at 1. unfold bind.
  rewrite storage_up by exact Hf. unfold delete_workouts.
  rewrite (select_own_row _ W PK HW). simpl.
  eexists. split; [reflexivity|].
  set (w' := with_db w _).
  assert (Hf' : faults w' = []) by exact Hf.
  assert (Hgone : forall r, In r (workouts (db w')) ->
                            SrcData.owned (Workout.id W) (Workout.userId W) r
                            = false).
  { intros r Hr. simpl in Hr. apply filter_In in Hr.
    now apply negb_true_iff. }
  split.
  - unfold SrcData.getWorkout, bind.
    rewrite storage_up by exact Hf'. rewrite with_db_same.
    unfold select_workouts. now rewrite (filter_none _ _ Hgone).
  - unfold SrcData.deleteWorkout, bind.
    rewrite storage_up by exact Hf'.
    rewrite (delete_nothing _ _ Hgone). now rewrite with_db_same.
Qed.

Lemma deleted_workout_is_gone_witness :
  exists w' : World,
    SrcData.deleteWorkout 2 "u1" (Sample.world None [])
    = (Returned (Some Sample.evening), w')
    /\ SrcData.getWorkout 2 "u1" w' = (Returned None, w').
Proof.
  destruct (deleted_workout_is_gone
              (Sample.world None []) Sample.evening
              sample_pk eq_refl (or_intror (or_introl eq_refl)))
    as (w' & Hdel & Hget & _).
  exists w'. split; [exact Hdel | exact Hget].
Defined.

(** X5.  [createWorkout] gives the new workout the next value of the
    serial, an id that no existing row has, appends it and leaves every
    other row and table alone; the workout created next gets the following
    id. *)
Theorem createWorkout_assigns_a_fresh_id (w : World)
  (data next : SrcData.CreateWorkoutData) :
  seq_fresh (db w) -> faults w = [] ->
  varchar255 (SrcData.c_userId data) = true ->
  name_fits (SrcData.c_name data) ->
  varchar255 (SrcData.c_userId next) = true ->
  name_fits (SrcData.c_name next) ->
  exists (W W2 : Workout.t) (w' w2 : World),
    SrcData.createWorkout data w = (Returned (Some W), w')
    /\ Workout.id W = workouts_id_seq (db w)
    /\ (forall r, In r (workouts (db w)) -> Workout.id r <> Workout.id W)
    /\ workouts (db w') = workouts (db w) ++ [W]
    /\ same_children (db w) (db w')
    /\ SrcData.createWorkout next w' = (Returned (Some W2), w2)
    /\ Workout.id W2 = Workout.id W + 1.
Proof.
  intros Fr Hf Hu Hn Hu2 Hn2.
  assert (fits : forall d : SrcData.CreateWorkoutData,
             varchar255 (SrcData.c_userId d) = true ->
             name_fits (SrcData.c_name d) ->
             forall i s c1 c2,
               workout_row_fits
                 (Workout.mk i (SrcData.c_userId d) (SrcData.c_name d)
                             s None c1 c2) = true).
  { intros d Hd Hnd i s c1 c2. unfold workout_row_fits; simpl.
    rewrite Hd; simpl.
    destruct (SrcData.c_name d) as [n|]; [now apply Hnd | reflexivity]. }
  unfold SrcData.createWorkout, bind.
  rewrite storage_up by exact Hf.
  unfold insert_workout. rewrite (fits data Hu Hn). simpl.
  eexists. eexists. eexists. eexists.
  split; [reflexivity|]. simpl.
  split; [reflexivity|]. split.
  { intros r Hr. unfold seq_fresh in Fr. rewrite Forall_forall in Fr.
    specialize (Fr r Hr). lia. }
  split; [reflexivity|]. split; [repeat split|].
  rewrite storage_up by exact Hf. simpl.
  rewrite (fits next Hu2 Hn2). simpl.
  split; reflexivity.
Qed.

Lemma createWorkout_assigns_a_fresh_id_witness :
  exists (W W2 : Workout.t) (w' w2 : World),
    SrcData.createWorkout
      (SrcData.mkCreate "u1" None Sample.t0) (Sample.world None [])
    = (Returned (Some W), w')
    /\ Workout.id W = 4
    /\ SrcData.createWorkout
         (SrcData.mkCreate "u2" (Some "Pull"%string) Sample.t0) w'
       = (Returned (Some W2), w2)
    /\ Workout.id W2 = Workout.id W + 1.
Proof.
  destruct (createWorkout_assigns_a_fresh_id
              (Sample.world None [])
              (SrcData.mkCreate "u1" None Sample.t0)
              (SrcData.mkCreate "u2" (Some "Pull"%string) Sample.t0)
              sample_fresh eq_refl eq_refl
              ltac:(intros s H; discriminate H)
              eq_refl
              ltac:(intros s H; injection H as <-; reflexivity))
    as (W & W2 & w' & w2 & H1 & Hid & _ & _ & _ & H2 & Hid2).
  exists W, W2, w', w2.
  split; [exact H1|]. split; [exact Hid|]. split; [exact H2 | exact Hid2].
Defined.

Lemma first_map {A B} (f : A -> B) (l : list A) :
  first (map f l) = option_map f (first l).
Proof. destruct l; reflexivity. Qed.

Lemma auth_updateWorkout_cases (id : Z) (data : Data.UpdateData)
  (w w' : World) (U : string) (o : Outcome JsThrown (option Workout.t)) :
  authUserId w = Some U -> U <> ""%string ->
  Data.updateWorkout id data w = (o, w') ->
  (db w' = db w /\ revalidated w' = revalidated w /\ exists e, o = Thrown e)
  \/ exists e0 : Workout.t,
       In e0 (workouts (db w)) /\ Workout.id e0 = id
       /\ (exists e, In e (workouts (db w))
                     /\ Workout.id e = id /\ Workout.userId e = U)
       /\ Data.encodable data = true
       /\ o = Returned (Some (Data.apply_update data (clock w) e0))
       /\ revalidated w' = revalidated w
       /\ console w' = console w
       /\ db w'
          = mkDb (exercises (db w))
                 (map (fun r => if Workout.id r =? id
                                then Data.apply_update data (clock w) r
                                else r)
                      (workouts (db w)))
                 (workoutExercises (db w)) (sets (db w))
                 (workouts_id_seq (db w)).
Proof.
  intros Hauth HU.
  unfold Data.updateWorkout, bind, auth. rewrite Hauth.
  rewrite (signed_in U HU), (signed_in_or_else U HU).
  unfold storage at 1.
  destruct (hd None (faults w)) as [f|]; simpl.
  { intros [= <- <-]. left. repeat split. now exists f. }
  destruct (first (select_workouts (SrcData.owned id U) (db w)))
    as [e|] eqn:He; simpl.
  2: { intros [= <- <-]. left. repeat split. now eexists. }
  destruct (Data.encodable data) eqn:Henc; simpl.
  2: { intros [= <- <-]. left. repeat split. now eexists. }
  unfold storage, update_workouts; simpl.
  destruct (hd None (tl (faults w))) as [f|]; simpl.
  { intros [= <- <-]. left. repeat split. now exists f. }
  apply first_In in He. unfold select_workouts in He.
  apply filter_In in He. destruct He as [Hin Ho].
  apply owned_spec in Ho. destruct Ho as [Hid Hu].
  destruct (forallb workout_row_fits _); simpl; intros [= <- <-].
  - destruct (first_filter_some (fun r => Workout.id r =? id)
                (workouts (db w)) e Hin) as [b Hb].
    { now apply Z.eqb_eq. }
    right. exists b. pose proof (first_In _ _ Hb) as Hbin.
    apply filter_In in Hbin. destruct Hbin as [Hbin Hbid].
    apply Z.eqb_eq in Hbid.
    split; [exact Hbin|]. split; [exact Hbid|].
    split; [exists e; tauto|]. split; [reflexivity|].
    rewrite first_map, Hb. simpl. repeat split.
  - left. repeat split. now eexists.
Qed.

(** X6.  A helper that throws has written nothing: whenever
    [createWorkout], [updateWorkout] or [deleteWorkout] of
    src/data/workouts.ts, or [updateWorkout] of data/workouts.ts, ends in
    an exception (a failed round trip, a value that a column rejects, a
    missing identity or row), the tables are as they were. *)
Theorem thrown_helper_has_written_nothing (w w' : World) (e : JsThrown) :
  (forall data,
      SrcData.createWorkout data w = (Thrown e, w') -> db w' = db w)
  /\ (forall id U data,
         SrcData.updateWorkout id U data w = (Thrown e, w') -> db w' = db w)
  /\ (forall id U,
         SrcData.deleteWorkout id U w = (Thrown e, w') -> db w' = db w)
  /\ (forall id data,
         Data.updateWorkout id data w = (Thrown e, w') -> db w' = db w).
Proof.
  split; [|split; [|split]].
  - intros data H. apply createWorkout_cases in H.
    destruct H as [[H _]|[H _]]; [exact H | discriminate].
  - intros id U data H. apply src_updateWorkout_cases in H.
    destruct H as [[H _]|[H _]]; [exact H | discriminate].
  - intros id U H. apply src_deleteWorkout_cases in H.
    destruct H as [[H _]|[H _]]; [exact H | discriminate].
  - intros id data H.
    destruct (falsy (authUserId w)) eqn:Hout.
    + unfold Data.updateWorkout, bind, auth in H. rewrite Hout in H.
      now injection H as _ <-.
    + destruct (authUserId w) as [U|] eqn:Hauth; [|discriminate].
      assert (HU : U <> ""%string).
      { intros ->. discriminate. }
      apply (auth_updateWorkout_cases _ _ _ _ U _ Hauth HU) in H.
      destruct H as [[H _]|(r & _ & _ & _ & _ & H & _)];
        [exact H | discriminate].
Qed.

Lemma thrown_helper_has_written_nothing_witness :
  db (snd (SrcData.createWorkout
             (SrcData.mkCreate "u1" None Sample.t0)
             (Sample.world None [Some Sample.down])))
  = Sample.db0.
Proof.
  apply (proj1 (thrown_helper_has_written_nothing
                  (Sample.world None [Some Sample.down])
                  (snd (SrcData.createWorkout
                          (SrcData.mkCreate "u1" None Sample.t0)
                          (Sample.world None [Some Sample.down])))
                  Sample.down)
               (SrcData.mkCreate "u1" None Sample.t0)).
  reflexivity.
Defined.

(** ** The helpers of data/workouts.ts *)

Lemma getUserWorkoutsByDate_run (w : World) (U : string) (D : Date) :
  authUserId w = Some U -> U <> ""%string -> faults w = [] ->
  Data.getUserWorkoutsByDate D w
  = (Returned
       (map (Data.with_workoutExercises (db w))
          (order_by (desc Workout.startedAt)
             (filter (Data.on_day U (Data.setHours (tz w) D 0 0 0 0)
                                  (Data.setHours (tz w) D 0 0 0 0 + 86399999))
                     (workouts (db w))))), w).
Proof.
  intros Hauth HU Hf.
  unfold Data.getUserWorkoutsByDate, bind, auth. rewrite Hauth.
  rewrite (signed_in U HU), (signed_in_or_else U HU).
  rewrite storage_up by exact Hf. rewrite with_db_same.
  now rewrite setHours_end_of_day.
Qed.

Lemma setHours_same_day (zone s d : Z) :
  (s + zone) mod Data.msPerDay = 0 -> s <= d < s + Data.msPerDay ->
  Data.setHours zone d 0 0 0 0 = s.
Proof.
  unfold Data.setHours, Data.msPerDay. intros Hs Hd.
  assert (E : (d + zone) mod 86400000 = d - s).
  { symmetry. apply (Z.mod_unique_pos _ _ ((s + zone) / 86400000)); [lia|].
    pose proof (Z.div_mod (s + zone) 86400000 ltac:(lia)). lia. }
  lia.
Qed.

(** X7.  [getUserWorkoutById] returns a workout only to its owner: for the
    signed-in user it yields the row with that id together with its
    workout exercises by [order] and their sets by [setNumber]; asked for
    the id of someone else's workout it yields no record. *)
Theorem getUserWorkoutById_serves_the_owner_only (w : World) (U : string)
  (W : Workout.t) :
  authUserId w = Some U -> U <> ""%string ->
  pk_unique (db w) -> faults w = [] -> In W (workouts (db w)) ->
  (Workout.userId W = U ->
   exists x : Data.WorkoutWith,
     Data.getUserWorkoutById (Workout.id W) w = (Returned (Some x), w)
     /\ Data.w_row x = W /\ nested_in_order (db w) x)
  /\ (Workout.userId W <> U ->
      Data.getUserWorkoutById (Workout.id W) w = (Returned None, w)).
Proof.
  intros Hauth HU PK Hf HW.
  unfold Data.getUserWorkoutById, bind, auth. rewrite Hauth.
  rewrite (signed_in U HU), (signed_in_or_else U HU).
  rewrite storage_up by exact Hf. rewrite with_db_same.
  unfold select_workouts. split.
  - intros <-. rewrite (select_own_row _ W PK HW). simpl.
    eexists. split; [reflexivity|]. split; [reflexivity|].
    apply with_workoutExercises_in_order.
  - intros Hne.
    pose proof (select_other_owner (db w) W U PK HW
                  (fun E => Hne (eq_sym E))) as Hnone.
    unfold select_workouts in Hnone.
    destruct (filter _ _); [reflexivity | discriminate].
Qed.

Lemma getUserWorkoutById_serves_the_owner_only_witness :
  Data.getUserWorkoutById 3 (Sample.world (Some "u1"%string) [])
  = (Returned None, Sample.world (Some "u1"%string) []).
Proof.
  apply (proj2 (getUserWorkoutById_serves_the_owner_only
                  (Sample.world (Some "u1"%string) []) "u1"%string
                  Sample.other eq_refl ltac:(discriminate)
                  sample_pk eq_refl
                  (or_intror (or_intror (or_introl eq_refl))))).
  unfold Sample.other; simpl. discriminate.
Defined.

(** X8.  For a signed-in user, when the store answers, [getUserWorkouts]
    of data/workouts.ts returns the workouts of that user and no other,
    each once, most recent start first, each with its workout exercises
    by [order] and their sets by [setNumber]. *)
Theorem getUserWorkouts_by_auth_lists_own_workouts (w : World) (U : string) :
  authUserId w = Some U -> U <> ""%string -> faults w = [] ->
  exists ws : list Data.WorkoutWith,
    Data.getUserWorkouts w = (Returned ws, w)
    /\ Permutation (map Data.w_row ws)
         (filter (fun r => String.eqb (Workout.userId r) U)
                 (workouts (db w)))
    /\ (forall r, In r (map Data.w_row ws) <->
                  In r (workouts (db w)) /\ Workout.userId r = U)
    /\ StronglySorted
         (fun a b => Workout.startedAt (Data.w_row b)
                     <= Workout.startedAt (Data.w_row a)) ws
    /\ Forall (nested_in_order (db w)) ws.
Proof.
  intros Hauth HU Hf.
  unfold Data.getUserWorkouts, bind, auth. rewrite Hauth.
  rewrite (signed_in U HU), (signed_in_or_else U HU).
  rewrite storage_up by exact Hf. rewrite with_db_same.
  eexists. split; [reflexivity|]. rewrite map_w_row.
  unfold select_workouts.
  pose proof (order_by_perm (desc Workout.startedAt)
                (filter (fun r => String.eqb (Workout.userId r) U)
                        (workouts (db w)))) as Hperm.
  split; [exact Hperm|]. split; [|split].
  - intros r. split.
    + intros Hr. apply (Permutation_in _ Hperm) in Hr.
      apply filter_In in Hr. destruct Hr as [Hin Hu].
      apply String.eqb_eq in Hu. tauto.
    + intros [Hin Hu]. apply (Permutation_in _ (Permutation_sym Hperm)).
      apply filter_In. split; [exact Hin | now apply String.eqb_eq].
  - apply StronglySorted_map with (f := Data.w_row)
      (R := fun a b => Workout.startedAt b <= Workout.startedAt a).
    rewrite map_w_row. apply (order_by_desc_sorted Workout.startedAt).
  - apply Forall_forall. intros x Hx. apply in_map_iff in Hx.
    destruct Hx as (r & <- & _). apply with_workoutExercises_in_order.
Qed.

Lemma getUserWorkouts_by_auth_lists_own_workouts_witness :
  exists ws : list Data.WorkoutWith,
    Data.getUserWorkouts (Sample.world (Some "u2"%string) [])
    = (Returned ws, Sample.world (Some "u2"%string) [])
    /\ (forall r, In r (map Data.w_row ws) <->
                  In r (workouts Sample.db0)
                  /\ Workout.userId r = "u2"%string).
Proof.
  destruct (getUserWorkouts_by_auth_lists_own_workouts
              (Sample.world (Some "u2"%string) []) "u2"%string
              eq_refl ltac:(discriminate) eq_refl)
    as (ws & Hrun & _ & Hin & _).
  exists ws. split; [exact Hrun | exact Hin].
Defined.

(** X9.  Without an identity (none, or an empty one) every helper of
    data/workouts.ts throws "Unauthorized" before it talks to the store:
    the world, the pending round trips included, is left as it was. *)
Theorem signed_out_helpers_throw_before_any_round_trip (w : World) :
  falsy (authUserId w) = true ->
  (forall D, Data.getUserWorkoutsByDate D w
             = (Thrown (ErrorObj "Unauthorized"), w))
  /\ Data.getUserWorkouts w = (Thrown (ErrorObj "Unauthorized"), w)
  /\ (forall id, Data.getUserWorkoutById id w
                 = (Thrown (ErrorObj "Unauthorized"), w))
  /\ (forall id data, Data.updateWorkout id data w
                      = (Thrown (ErrorObj "Unauthorized"), w)).
Proof.
  intros Hout. repeat split; intros;
    unfold Data.getUserWorkoutsByDate, Data.getUserWorkouts,
      Data.getUserWorkoutById, Data.updateWorkout, bind, auth;
    rewrite Hout; reflexivity.
Qed.

Lemma signed_out_helpers_throw_before_any_round_trip_witness :
  Data.getUserWorkouts (Sample.world (Some ""%string) [Some Sample.down])
  = (Thrown (ErrorObj "Unauthorized"),
     Sample.world (Some ""%string) [Some Sample.down]).
Proof.
  apply (proj1 (proj2 (signed_out_helpers_throw_before_any_round_trip
                         (Sample.world (Some ""%string) [Some Sample.down])
                         eq_refl))).
Defined.

Lemma updateWorkout_by_auth_not_found (w : World) (U : string)
  (id : Z) (data : Data.UpdateData) :
  authUserId w = Some U -> U <> ""%string -> faults w = [] ->
  (forall r, In r (workouts (db w)) ->
             ~ (Workout.id r = id /\ Workout.userId r = U)) ->
  Data.updateWorkout id data w = (Thrown Data.not_found, w).
Proof.
  intros Hauth HU Hf Hnone.
  unfold Data.updateWorkout, bind, auth. rewrite Hauth.
  rewrite (signed_in U HU), (signed_in_or_else U HU).
  rewrite storage_up by exact Hf. rewrite with_db_same.
  unfold select_workouts. rewrite filter_none; [reflexivity|].
  intros r Hr. destruct (SrcData.owned id U r) eqn:E; auto.
  apply owned_spec in E. exfalso. now apply (Hnone r Hr).
Qed.

(** X10.  [updateWorkout] of data/workouts.ts gives one answer for a
    workout that does not exist and for a workout of another user: it
    throws "Workout not found or unauthorized" and changes nothing. *)
Theorem updateWorkout_by_auth_hides_foreign_rows (w : World) (U : string)
  (id : Z) (data : Data.UpdateData) :
  authUserId w = Some U -> U <> ""%string -> faults w = [] ->
  (forall r, In r (workouts (db w)) ->
             ~ (Workout.id r = id /\ Workout.userId r = U)) ->
  Data.updateWorkout id data w
  = (Thrown (ErrorObj "Workout not found or unauthorized"), w).
Proof.
  intros Hauth HU Hf Hnone.
  unfold Data.updateWorkout, bind, auth. rewrite Hauth.
  rewrite (signed_in U HU), (signed_in_or_else U HU).
  rewrite storage_up by exact Hf. rewrite with_db_same.
  unfold select_workouts. rewrite filter_none; [reflexivity|].
  intros r Hr. destruct (SrcData.owned id U r) eqn:E; auto.
  apply owned_spec in E. exfalso. now apply (Hnone r Hr).
Qed.

Lemma updateWorkout_by_auth_hides_foreign_rows_witness :
  Data.updateWorkout 3 (Data.mkUpdate (Some "Mine"%string) None None)
                     (Sample.world (Some "u1"%string) [])
  = Data.updateWorkout 99 (Data.mkUpdate (Some "Mine"%string) None None)
                       (Sample.world (Some "u1"%string) []).
Proof.
  rewrite (updateWorkout_by_auth_hides_foreign_rows
             (Sample.world (Some "u1"%string) []) "u1"%string 3
             (Data.mkUpdate (Some "Mine"%string) None None)
             eq_refl ltac:(discriminate) eq_refl).
  - reflexivity.
  - simpl. intros r [<-|[<-|[<-|[]]]] [H1 H2]; simpl in *; discriminate.
Defined.

(** X11.  [getUserWorkoutsByDate] depends on the local day of its date
    only: two dates of one local day give the same outcome in the same
    world, whoever is signed in and whatever the fate of the round trip. *)
Theorem getUserWorkoutsByDate_same_day_same_list (w : World) (s D D' : Date) :
  (s + tz w) mod 86400000 = 0 ->
  s <= D < s + 86400000 -> s <= D' < s + 86400000 ->
  Data.getUserWorkoutsByDate D w = Data.getUserWorkoutsByDate D' w.
Proof.
  intros Hs HD HD'.
  unfold Data.getUserWorkoutsByDate, bind, auth.
  destruct (falsy (authUserId w)); [reflexivity|].
  rewrite !setHours_end_of_day.
  rewrite (setHours_same_day (tz w) s D Hs HD).
  rewrite (setHours_same_day (tz w) s D' Hs HD').
  reflexivity.
Qed.

Lemma getUserWorkoutsByDate_same_day_same_list_witness :
  Data.getUserWorkoutsByDate Sample.t0 (Sample.world (Some "u1"%string) [])
  = Data.getUserWorkoutsByDate (Sample.t0 + 50000000)
                               (Sample.world (Some "u1"%string) []).
Proof.
  apply (getUserWorkoutsByDate_same_day_same_list
           (Sample.world (Some "u1"%string) [])
           (Sample.t0 - 28800000)).
  - reflexivity.
  - unfold Sample.t0. lia.
  - unfold Sample.t0. lia.
Defined.

(** X12.  The window of [getUserWorkoutsByDate] ends one millisecond
    before the day does.  A workout of the signed-in user is listed for
    some date exactly when it did not start in the last millisecond
    (23:59:59.999) of a local day, and then it is listed for the date of
    its own start. *)
Theorem last_millisecond_of_a_day_is_never_listed (w : World) (U : string)
  (r : Workout.t) :
  authUserId w = Some U -> U <> ""%string -> faults w = [] ->
  In r (workouts (db w)) -> Workout.userId r = U ->
  ((exists D ws, Data.getUserWorkoutsByDate D w = (Returned ws, w)
                 /\ In r (map Data.w_row ws))
   <-> (Workout.startedAt r + tz w) mod 86400000 <> 86399999)
  /\ ((Workout.startedAt r + tz w) mod 86400000 <> 86399999 ->
      exists ws, Data.getUserWorkoutsByDate (Workout.startedAt r) w
                 = (Returned ws, w)
                 /\ In r (map Data.w_row ws)).
Proof.
  intros Hauth HU Hf Hr Hu.
  assert (Hlisted : forall D,
             In r (map Data.w_row
                     (map (Data.with_workoutExercises (db w))
                        (order_by (desc Workout.startedAt)
                           (filter (Data.on_day U
                                      (Data.setHours (tz w) D 0 0 0 0)
                                      (Data.setHours (tz w) D 0 0 0 0
                                       + 86399999))
                                   (workouts (db w))))))
             <-> Data.setHours (tz w) D 0 0 0 0 <= Workout.startedAt r
                 < Data.setHours (tz w) D 0 0 0 0 + 86399999).
  { intros D. rewrite map_w_row. split.
    - intros H. apply (Permutation_in _ (order_by_perm _ _)) in H.
      apply filter_In in H. destruct H as [_ H]. unfold Data.on_day in H.
      rewrite !andb_true_iff, Z.leb_le, Z.ltb_lt in H. tauto.
    - intros H.
      apply (Permutation_in _ (Permutation_sym (order_by_perm _ _))).
      apply filter_In. split; [exact Hr|]. unfold Data.on_day.
      rewrite !andb_true_iff, String.eqb_eq, Z.leb_le, Z.ltb_lt. tauto. }
  assert (Hown : (Workout.startedAt r + tz w) mod 86400000 <> 86399999 ->
                 Data.setHours (tz w) (Workout.startedAt r) 0 0 0 0
                 <= Workout.startedAt r
                 < Data.setHours (tz w) (Workout.startedAt r) 0 0 0 0
                   + 86399999).
  { intros Hne.
    pose proof (Z.mod_pos_bound (Workout.startedAt r + tz w) 86400000
                  ltac:(lia)).
    unfold Data.setHours, Data.msPerDay. lia. }
  split; [split|].
  - intros (D & ws & Hrun & Hin).
    rewrite (getUserWorkoutsByDate_run w U D Hauth HU Hf) in Hrun.
    injection Hrun as <-. apply Hlisted in Hin.
    destruct (setHours_midnight (tz w) D) as [Hmid _].
    unfold Data.msPerDay in Hmid.
    set (s := Data.setHours (tz w) D 0 0 0 0) in *.
    assert (E : (Workout.startedAt r + tz w) mod 86400000
                = Workout.startedAt r - s).
    { symmetry.
      apply (Z.mod_unique_pos _ _ ((s + tz w) / 86400000)); [lia|].
      pose proof (Z.div_mod (s + tz w) 86400000 ltac:(lia)). lia. }
    lia.
  - intros Hne. exists (Workout.startedAt r). eexists.
    split; [apply (getUserWorkoutsByDate_run w U _ Hauth HU Hf)|].
    apply Hlisted. now apply Hown.
  - intros Hne. eexists.
    split; [apply (getUserWorkoutsByDate_run w U _ Hauth HU Hf)|].
    apply Hlisted. now apply Hown.
Qed.

Lemma last_millisecond_of_a_day_is_never_listed_witness :
  exists ws,
    Data.getUserWorkoutsByDate (Workout.startedAt Sample.evening)
                               (Sample.world (Some "u1"%string) [])
    = (Returned ws, Sample.world (Some "u1"%string) [])
    /\ In Sample.evening (map Data.w_row ws).
Proof.
  apply (proj2 (last_millisecond_of_a_day_is_never_listed
                  (Sample.world (Some "u1"%string) []) "u1"%string
                  Sample.evening eq_refl ltac:(discriminate) eq_refl
                  (or_intror (or_introl eq_refl)) eq_refl)).
  vm_compute. discriminate.
Defined.

Lemma updateWorkout_by_auth_changes_only_supplied_fields_witness :
  exists (W' : Workout.t) (w' : World),
    Data.updateWorkout 1 (Data.mkUpdate None None (Some None))
                       (Sample.world (Some "u1"%string) [])
    = (Returned (Some W'), w')
    /\ Workout.completedAt W' = None
    /\ Workout.name W' = Some "Leg Day"%string.
Proof.
  destruct (updateWorkout_by_auth_changes_only_supplied_fields
              (Sample.world (Some "u1"%string) []) Sample.legDay
              (Data.mkUpdate None None (Some None))
              sample_pk sample_fit eq_refl (or_introl eq_refl)
              eq_refl ltac:(discriminate)
              ltac:(intros s H; discriminate H) eq_refl)
    as (W' & w' & Hrun & Hname & _ & _ & _ & _ & Hclear & _).
  exists W', w'. split; [exact Hrun|].
  split; [now apply Hclear | now apply Hname].
Defined.

(** ** The outcomes of the actions *)

Section ActionOutcomes.

Variable Date_parse : string -> option Date.

Local Abbreviation schema := (Actions.createWorkoutSchema Date_parse).
Local Abbreviation createWorkoutAction :=
  (Actions.createWorkoutAction Date_parse).
Local Abbreviation updateWorkoutAction :=
  (Actions.updateWorkoutAction Date_parse).
Local Abbreviation updateData := (Actions.updateData Date_parse).

Lemma createWorkoutAction_cases (input : Actions.CreateWorkoutInput)
  (w w' : World) (o : Outcome Actions.ZodError Actions.ActionResult) :
  createWorkoutAction input w = (o, w') ->
  (schema input <> []
   /\ o = Thrown (Actions.mkZodError (schema input)) /\ w' = w)
  \/ (schema input = [] /\ falsy (authUserId w) = true
      /\ o = Returned (Actions.Failure "Unauthorized") /\ w' = w)
  \/ (schema input = [] /\ falsy (authUserId w) = false
      /\ o = Returned (Actions.Failure "Failed to create workout")
      /\ db w' = db w /\ revalidated w' = revalidated w)
  \/ (schema input = [] /\ falsy (authUserId w) = false
      /\ exists t : Date,
           Date_parse (Actions.startedAt input) = Some t
           /\ o = Returned
                    (Actions.Success
                       (Some (Workout.mk (workouts_id_seq (db w))
                                (or_else (authUserId w) "")
                                (Actions.name input) t None
                                (clock w) (clock w))))
           /\ db w'
              = mkDb (exercises (db w))
                     (workouts (db w)
                      ++ [Workout.mk (workouts_id_seq (db w))
                            (or_else (authUserId w) "")
                            (Actions.name input) t None
                            (clock w) (clock w)])
                     (workoutExercises (db w)) (sets (db w))
                     (workouts_id_seq (db w) + 1)
           /\ revalidated w' = revalidated w ++ ["/dashboard"%string]
           /\ console w' = console w).
Proof.
  destruct (schema input) as [|i rest] eqn:Hs.
  2: { intros H. left.
       assert (Hbad : schema input <> []) by (rewrite Hs; discriminate).
       rewrite (createWorkoutAction_rejects Date_parse input w Hbad) in H.
       rewrite Hs in H. injection H as <- <-.
       split; [discriminate|]. split; reflexivity. }
  unfold Actions.createWorkoutAction, bind.
  rewrite (parse_passes Date_parse input w Hs). unfold auth.
  destruct (falsy (authUserId w)) eqn:Hout.
  { intros [= <- <-]. right. left. repeat split. }
  destruct (proj1 (schema_passes_iff Date_parse input) Hs) as [_ [t Ht]].
  unfold try_catch, Actions.Date_of_string. rewrite Ht.
  unfold SrcData.createWorkout, bind, storage, insert_workout.
  destruct (hd None (faults w)) as [f|]; simpl.
  { intros [= <- <-]. right. right. left. repeat split. }
  destruct (workout_row_fits _); simpl; intros [= <- <-].
  - right. right. right. split; [reflexivity|]. split; [reflexivity|].
    exists t. repeat split.
  - right. right. left. repeat split.
Qed.

Lemma auth_updateWorkout_run (w : World) (W : Workout.t)
  (data : Data.UpdateData) :
  pk_unique (db w) -> rows_fit (db w) -> faults w = [] ->
  In W (workouts (db w)) ->
  authUserId w = Some (Workout.userId W) -> Workout.userId W <> ""%string ->
  name_fits (Data.u_name data) -> Data.encodable data = true ->
  Data.updateWorkout (Workout.id W) data w
  = (Returned (Some (Data.apply_update data (clock w) W)),
     with_db w
       (mkDb (exercises (db w))
             (map (fun r => if Workout.id r =? Workout.id W
                            then Data.apply_update data (clock w) r else r)
                  (workouts (db w)))
             (workoutExercises (db w)) (sets (db w))
             (workouts_id_seq (db w)))).
Proof.
  intros PK Fit Hf HW Hauth HU Hn Henc.
  unfold Data.updateWorkout, bind, auth. rewrite Hauth.
  rewrite (signed_in _ HU), (signed_in_or_else _ HU).
  rewrite storage_up by exact Hf. rewrite with_db_same.
  unfold select_workouts. rewrite (select_own_row _ W PK HW). simpl.
  unfold new_Date. rewrite Henc.
  rewrite storage_up by exact Hf.
  unfold update_workouts. rewrite (select_by_id _ W PK HW). simpl.
  assert (Hfit' : workout_row_fits (Data.apply_update data (clock w) W)
                  = true).
  { unfold rows_fit in Fit. rewrite Forall_forall in Fit.
    specialize (Fit W HW).
    unfold workout_row_fits, Data.apply_update in *; simpl.
    apply andb_true_iff in Fit. destruct Fit as [Hu Hname].
    rewrite Hu; simpl.
    destruct (Data.u_name data) as [n|]; [now apply Hn | exact Hname]. }
  rewrite Hfit'. reflexivity.
Qed.

Lemma updateWorkoutAction_cases (data : Actions.UpdateWorkoutInput)
  (w w' : World) (o : Outcome Actions.ZodError Actions.ActionResult) :
  updateWorkoutAction data w = (o, w') ->
  (exists e, o = Returned (Actions.Failure e)
             /\ db w' = db w /\ revalidated w' = revalidated w)
  \/ exists (U : string) (e0 : Workout.t),
       authUserId w = Some U /\ U <> ""%string
       /\ In e0 (workouts (db w)) /\ Workout.id e0 = Actions.workoutId data
       /\ (exists e, In e (workouts (db w))
                     /\ Workout.id e = Actions.workoutId data
                     /\ Workout.userId e = U)
       /\ o = Returned
                (Actions.Success
                   (Some (Data.apply_update (updateData data) (clock w) e0)))
       /\ revalidated w'
          = revalidated w
            ++ ["/dashboard"%string;
                ("/dashboard/workout/"
                 ++ Actions.number_to_string (Actions.workoutId data))%string]
       /\ db w'
          = mkDb (exercises (db w))
                 (map (fun r => if Workout.id r =? Actions.workoutId data
                                then Data.apply_update (updateData data)
                                                       (clock w) r
                                else r)
                      (workouts (db w)))
                 (workoutExercises (db w)) (sets (db w))
                 (workouts_id_seq (db w)).
Proof.
  destruct (falsy (authUserId w)) eqn:Hout.
  { destruct (updateWorkoutAction_signed_out Date_parse data w Hout)
      as (w1 & Hr & Hdb & Hrv).
    rewrite Hr. intros [= <- <-]. left. eauto. }
  destruct (authUserId w) as [U|] eqn:Hauth; [|discriminate].
  assert (HU : U <> ""%string) by (intros ->; discriminate).
  rewrite updateWorkoutAction_unfold. unfold try_catch, bind.
  destruct (Data.updateWorkout _ _ w) as [[r|e] w1] eqn:H1;
    apply (auth_updateWorkout_cases _ _ _ _ U _ Hauth HU) in H1;
    destruct H1 as [(Hdb & Hrv & e' & He')
                   |(e0 & Hin & Hid & Hex & _ & Ho & Hrv & _ & Hdb)];
    try discriminate.
  - injection Ho as ->. unfold revalidatePath, ret.
    intros [= <- <-]. right. exists U, e0. simpl.
    split; [reflexivity|]. split; [exact HU|]. split; [exact Hin|].
    split; [exact Hid|]. split; [exact Hex|]. split; [reflexivity|].
    split; [|exact Hdb]. rewrite Hrv, <- app_assoc. reflexivity.
  - unfold console_error, ret. intros [= <- <-]. left. simpl. eauto.
Qed.

(** X14.  [createWorkoutAction] on an input that passes validation, for a
    signed-in user, when the store answers and the serial is ahead of
    every id in the table: it succeeds with the created
    workout, which carries the identity as owner, the name as given, the
    parsed start, no completion and the current time as both timestamps;
    the row is appended to the table under an id that no other row has,
    "/dashboard" is revalidated and nothing is logged. *)
Theorem createWorkoutAction_succeeds (w : World)
  (input : Actions.CreateWorkoutInput) (U : string) :
  schema input = [] ->
  authUserId w = Some U -> U <> ""%string -> varchar255 U = true ->
  faults w = [] -> seq_fresh (db w) ->
  exists (t : Date) (W : Workout.t) (w' : World),
    Date_parse (Actions.startedAt input) = Some t
    /\ createWorkoutAction input w
       = (Returned (Actions.Success (Some W)), w')
    /\ Workout.userId W = U
    /\ Workout.name W = Actions.name input
    /\ Workout.startedAt W = t
    /\ Workout.completedAt W = None
    /\ Workout.createdAt W = clock w /\ Workout.updatedAt W = clock w
    /\ workouts (db w') = workouts (db w) ++ [W]
    /\ same_children (db w) (db w')
    /\ revalidated w' = revalidated w ++ ["/dashboard"%string]
    /\ console w' = console w
    /\ (forall r, In r (workouts (db w)) -> Workout.id r <> Workout.id W).
Proof.
  intros Hs Hauth HU HfitU Hf Fr.
  destruct (proj1 (schema_passes_iff Date_parse input) Hs) as [Hname [t Ht]].
  exists t.
  unfold Actions.createWorkoutAction, bind.
  rewrite (parse_passes Date_parse input w Hs). unfold auth.
  rewrite Hauth, (signed_in U HU), (signed_in_or_else U HU).
  unfold try_catch, Actions.Date_of_string. rewrite Ht.
  unfold SrcData.createWorkout, bind.
  rewrite storage_up by exact Hf.
  unfold insert_workout, workout_row_fits; simpl. rewrite HfitU; simpl.
  assert (Hn : match Actions.name input with
               | Some n => varchar255 n
               | None => true
               end = true).
  { destruct (Actions.name input) as [n|]; [|reflexivity].
    unfold varchar255. apply Nat.leb_le.
    specialize (Hname n eq_refl). lia. }
  rewrite Hn. simpl.
  eexists. eexists. split; [reflexivity|]. split; [reflexivity|].
  simpl. repeat split.
  intros r Hr. unfold seq_fresh in Fr. rewrite Forall_forall in Fr.
  specialize (Fr r Hr). lia.
Qed.

(** X15.  [updateWorkoutAction] on a workout of the signed-in user, when
    the store answers and the dates that it was given can be read: it
    succeeds with the updated workout and revalidates "/dashboard" and the
    page of the workout.  A name that is given is stored as it is, an
    empty one included; an absent or empty [startedAt] keeps the start; a
    [completedAt] of [null] clears the completion and an absent or empty
    one keeps it. *)
Theorem updateWorkoutAction_succeeds (w : World) (W : Workout.t)
  (data : Actions.UpdateWorkoutInput) :
  pk_unique (db w) -> rows_fit (db w) -> faults w = [] ->
  In W (workouts (db w)) -> Actions.workoutId data = Workout.id W ->
  authUserId w = Some (Workout.userId W) -> Workout.userId W <> ""%string ->
  name_fits (Actions.u_name data) ->
  (forall s, Actions.u_startedAt data = Some s -> s <> ""%string ->
             Date_parse s <> None) ->
  (forall s, Actions.u_completedAt data = Some (Some s) -> s <> ""%string ->
             Date_parse s <> None) ->
  exists (W' : Workout.t) (w' : World),
    updateWorkoutAction data w = (Returned (Actions.Success (Some W')), w')
    /\ revalidated w'
       = revalidated w
         ++ ["/dashboard"%string;
             ("/dashboard/workout/"
              ++ Actions.number_to_string (Workout.id W))%string]
    /\ In W' (workouts (db w'))
    /\ Workout.id W' = Workout.id W /\ Workout.userId W' = Workout.userId W
    /\ Workout.createdAt W' = Workout.createdAt W
    /\ Workout.updatedAt W' = clock w
    /\ (Actions.u_name data = None -> Workout.name W' = Workout.name W)
    /\ (forall n, Actions.u_name data = Some n -> Workout.name W' = Some n)
    /\ (Actions.u_startedAt data = None
        \/ Actions.u_startedAt data = Some ""%string ->
        Workout.startedAt W' = Workout.startedAt W)
    /\ (forall s t, Actions.u_startedAt data = Some s -> s <> ""%string ->
                    Date_parse s = Some t -> Workout.startedAt W' = t)
    /\ (Actions.u_completedAt data = None
        \/ Actions.u_completedAt data = Some (Some ""%string) ->
        Workout.completedAt W' = Workout.completedAt W)
    /\ (Actions.u_completedAt data = Some None ->
        Workout.completedAt W' = None)
    /\ (forall s t, Actions.u_completedAt data = Some (Some s) ->
                    s <> ""%string -> Date_parse s = Some t ->
                    Workout.completedAt W' = Some t).
Proof.
  intros PK Fit Hf HW Hid Hauth HU Hn Hst Hco.
  assert (Henc : Data.encodable (updateData data) = true).
  { unfold Data.encodable, Actions.updateData, Actions.Date_of_string; simpl.
    apply andb_true_iff. split.
    - destruct (Actions.u_startedAt data) as [s|] eqn:Es; [|reflexivity].
      destruct (String.eqb s "") eqn:Eb; [reflexivity|].
      apply String.eqb_neq in Eb.
      specialize (Hst s eq_refl Eb). now destruct (Date_parse s).
    - destruct (Actions.u_completedAt data) as [[s|]|] eqn:Es;
        try reflexivity.
      destruct (String.eqb s "") eqn:Eb; [reflexivity|].
      apply String.eqb_neq in Eb.
      specialize (Hco s eq_refl Eb). now destruct (Date_parse s). }
  pose proof (auth_updateWorkout_run w W (updateData data)
                PK Fit Hf HW Hauth HU Hn Henc) as Hrun.
  rewrite updateWorkoutAction_unfold. unfold try_catch, bind.
  rewrite Hid, Hrun. unfold revalidatePath, ret.
  eexists. eexists. split; [reflexivity|]. simpl.
  split; [now rewrite <- app_assoc|]. split.
  { apply in_map_iff. exists W. split; [|exact HW].
    now rewrite Z.eqb_refl. }
  unfold Actions.updateData, Actions.Date_of_string; simpl.
  repeat split.
  - intros ->. reflexivity.
  - intros n ->. reflexivity.
  - intros [->| ->]; reflexivity.
  - intros s t -> Hs Ht. apply String.eqb_neq in Hs. now rewrite Hs, Ht.
  - intros [->| ->]; reflexivity.
  - intros ->. reflexivity.
  - intros s t -> Hs Ht. apply String.eqb_neq in Hs. now rewrite Hs, Ht.
Qed.

(** X16.  [updateWorkoutAction] answers a workout id that does not exist
    and the id of another user's workout alike: the failure "Workout not
    found or unauthorized", with nothing written and nothing revalidated. *)
Theorem updateWorkoutAction_hides_foreign_rows (w : World) (U : string)
  (data : Actions.UpdateWorkoutInput) :
  authUserId w = Some U -> U <> ""%string -> faults w = [] ->
  (forall r, In r (workouts (db w)) ->
             ~ (Workout.id r = Actions.workoutId data
                /\ Workout.userId r = U)) ->
  exists w' : World,
    updateWorkoutAction data w
    = (Returned (Actions.Failure "Workout not found or unauthorized"), w')
    /\ db w' = db w /\ revalidated w' = revalidated w.
Proof.
  intros Hauth HU Hf Hnone.
  rewrite updateWorkoutAction_unfold. unfold try_catch, bind at 1.
  rewrite (updateWorkout_by_auth_not_found w U _ _ Hauth HU Hf Hnone).
  unfold bind, console_error, ret.
  eexists. split; [reflexivity|]. split; reflexivity.
Qed.

End ActionOutcomes.

(** ** Keys, composition and edge cases of the write paths *)

Lemma keys_after_append (d : Db) (r : Workout.t) :
  pk_unique d -> seq_fresh d -> Workout.id r = workouts_id_seq d ->
  pk_unique (mkDb (exercises d) (workouts d ++ [r]) (workoutExercises d)
                  (sets d) (workouts_id_seq d + 1))
  /\ seq_fresh (mkDb (exercises d) (workouts d ++ [r]) (workoutExercises d)
                     (sets d) (workouts_id_seq d + 1)).
Proof.
  unfold pk_unique, seq_fresh; simpl. intros PK Fr Hid.
  rewrite Forall_forall in Fr. split.
  - rewrite map_app. simpl. apply NoDup_app; [exact PK | |].
    + repeat constructor. simpl. tauto.
    + intros x Hx [<-|[]]. apply in_map_iff in Hx.
      destruct Hx as (r0 & Er & Hr). specialize (Fr r0 Hr). lia.
  - apply Forall_app. split.
    + apply Forall_forall. intros r0 Hr. specialize (Fr r0 Hr). lia.
    + repeat constructor. lia.
Qed.

Lemma keys_after_map (d : Db) (f : Workout.t -> Workout.t) :
  (forall r, Workout.id (f r) = Workout.id r) ->
  pk_unique d -> seq_fresh d ->
  pk_unique (mkDb (exercises d) (map f (workouts d)) (workoutExercises d)
                  (sets d) (workouts_id_seq d))
  /\ seq_fresh (mkDb (exercises d) (map f (workouts d)) (workoutExercises d)
                     (sets d) (workouts_id_seq d)).
Proof.
  unfold pk_unique, seq_fresh; simpl. intros Hid PK Fr. split.
  - rewrite map_map. rewrite (map_ext _ Workout.id); [exact PK | exact Hid].
  - apply Forall_map. eapply Forall_impl; [|exact Fr]. simpl.
    intros r Hr. now rewrite Hid.
Qed.

Lemma listed_on_day (d : Db) (U : string) (s : Date) (r : Workout.t) :
  In r (map Data.w_row
          (map (Data.with_workoutExercises d)
             (order_by (desc Workout.startedAt)
                (filter (Data.on_day U s (s + 86399999)) (workouts d)))))
  <-> In r (workouts d) /\ Workout.userId r = U
      /\ s <= Workout.startedAt r < s + 86399999.
Proof.
  rewrite map_w_row. split.
  - intros H. apply (Permutation_in _ (order_by_perm _ _)) in H.
    apply filter_In in H. destruct H as [Hin H]. unfold Data.on_day in H.
    rewrite !andb_true_iff, String.eqb_eq, Z.leb_le, Z.ltb_lt in H. tauto.
  - intros (Hin & Hu & Hw).
    apply (Permutation_in _ (Permutation_sym (order_by_perm _ _))).
    apply filter_In. split; [exact Hin|]. unfold Data.on_day.
    rewrite !andb_true_iff, String.eqb_eq, Z.leb_le, Z.ltb_lt. tauto.
Qed.

Lemma window_of_own_start (zone t : Z) :
  (t + zone) mod 86400000 <> 86399999 ->
  Data.setHours zone t 0 0 0 0 <= t
  < Data.setHours zone t 0 0 0 0 + 86399999.
Proof.
  intros Hne.
  pose proof (Z.mod_pos_bound (t + zone) 86400000 ltac:(lia)).
  unfold Data.setHours, Data.msPerDay. lia.
Qed.

Section WritePaths.

Variable Date_parse : string -> option Date.

Local Abbreviation schema := (Actions.createWorkoutSchema Date_parse).
Local Abbreviation createWorkoutAction :=
  (Actions.createWorkoutAction Date_parse).
Local Abbreviation updateWorkoutAction :=
  (Actions.updateWorkoutAction Date_parse).
Local Abbreviation updateData := (Actions.updateData Date_parse).

(** X17.  Both actions write and revalidate on success only.  A success
    result always carries a record and comes with the revalidation of
    "/dashboard" (and, for an update, of the page of the workout); with
    any other outcome, a failure result or a thrown validation error, the
    tables and the revalidated paths are as they were. *)
Theorem actions_write_and_revalidate_on_success_only (w w' : World) :
  (forall input o,
      createWorkoutAction input w = (o, w') ->
      match o with
      | Returned (Actions.Success r) =>
          r <> None
          /\ revalidated w' = revalidated w ++ ["/dashboard"%string]
      | Returned (Actions.Failure _) | Thrown _ =>
          db w' = db w /\ revalidated w' = revalidated w
      end)
  /\ (forall data o,
         updateWorkoutAction data w = (o, w') ->
         match o with
         | Returned (Actions.Success r) =>
             r <> None
             /\ revalidated w'
                = revalidated w
                  ++ ["/dashboard"%string;
                      ("/dashboard/workout/"
                       ++ Actions.number_to_string
                            (Actions.workoutId data))%string]
         | Returned (Actions.Failure _) | Thrown _ =>
             db w' = db w /\ revalidated w' = revalidated w
         end).
Proof.
  split.
  - intros input o H. apply createWorkoutAction_cases in H.
    destruct H as [(_ & -> & ->)
                  |[(_ & _ & -> & ->)
                   |[(_ & _ & -> & Hdb & Hrv)
                    |(_ & _ & t & _ & -> & _ & Hrv & _)]]].
    + split; reflexivity.
    + split; reflexivity.
    + split; assumption.
    + split; [discriminate | exact Hrv].
  - intros data o H. apply updateWorkoutAction_cases in H.
    destruct H as [(e & -> & Hdb & Hrv)
                  |(U & e0 & _ & _ & _ & _ & _ & -> & Hrv & _)].
    + split; assumption.
    + split; [discriminate | exact Hrv].
Qed.

(** X18.  [updateWorkoutAction] does not validate its dates.  A
    [startedAt] or [completedAt] that [Date.parse] cannot read, sent for a
    workout of the signed-in user, passes the ownership check and fails
    only when the update statement is built: the result is the failure
    "Invalid time value" and nothing is written or revalidated. *)
Theorem updateWorkoutAction_unreadable_date (w : World) (W : Workout.t)
  (data : Actions.UpdateWorkoutInput) (s : string) :
  faults w = [] -> In W (workouts (db w)) ->
  Actions.workoutId data = Workout.id W ->
  authUserId w = Some (Workout.userId W) -> Workout.userId W <> ""%string ->
  (Actions.u_startedAt data = Some s
   \/ Actions.u_completedAt data = Some (Some s)) ->
  s <> ""%string -> Date_parse s = None ->
  exists w' : World,
    updateWorkoutAction data w
    = (Returned (Actions.Failure "Invalid time value"), w')
    /\ db w' = db w /\ revalidated w' = revalidated w.
Proof.
  intros Hf HW Hid Hauth HU Hbad Hs Hp.
  assert (Henc : Data.encodable (updateData data) = false).
  { apply String.eqb_neq in Hs.
    unfold Data.encodable, Actions.updateData, Actions.Date_of_string; simpl.
    destruct Hbad as [-> | ->]; rewrite Hs, Hp.
    - reflexivity.
    - apply andb_false_r. }
  assert (Hrun : Data.updateWorkout (Actions.workoutId data)
                   (updateData data) w
                 = (Thrown Data.invalid_time, w)).
  { unfold Data.updateWorkout, bind, auth. rewrite Hauth.
    rewrite (signed_in _ HU), (signed_in_or_else _ HU).
    rewrite storage_up by exact Hf. rewrite with_db_same.
    destruct (first_filter_some
                (SrcData.owned (Actions.workoutId data) (Workout.userId W))
                (workouts (db w)) W HW) as [b Hb].
    { apply owned_spec. split; [now rewrite Hid | reflexivity]. }
    unfold select_workouts. rewrite Hb. unfold new_Date.
    now rewrite Henc. }
  rewrite updateWorkoutAction_unfold. unfold try_catch, bind at 1.
  rewrite Hrun. unfold bind, console_error, ret.
  eexists. split; [reflexivity|]. split; reflexivity.
Qed.

(** X19.  Every write path keeps the primary key: if the ids of
    [workouts] are distinct and below the serial before a call of
    [createWorkout], [updateWorkout] or [deleteWorkout] of either data
    file, or of one of the two actions, they are so after it, whatever
    its outcome. *)
Theorem writes_keep_the_primary_key (w w' : World) :
  pk_unique (db w) -> seq_fresh (db w) ->
  (forall data o, SrcData.createWorkout data w = (o, w') ->
                  pk_unique (db w') /\ seq_fresh (db w'))
  /\ (forall id U data o, SrcData.updateWorkout id U data w = (o, w') ->
                          pk_unique (db w') /\ seq_fresh (db w'))
  /\ (forall id U o, SrcData.deleteWorkout id U w = (o, w') ->
                     pk_unique (db w') /\ seq_fresh (db w'))
  /\ (forall id data o, Data.updateWorkout id data w = (o, w') ->
                        pk_unique (db w') /\ seq_fresh (db w'))
  /\ (forall input o, createWorkoutAction input w = (o, w') ->
                      pk_unique (db w') /\ seq_fresh (db w'))
  /\ (forall data o, updateWorkoutAction data w = (o, w') ->
                     pk_unique (db w') /\ seq_fresh (db w')).
Proof.
  intros PK Fr.
  assert (Hsame : db w' = db w -> pk_unique (db w') /\ seq_fresh (db w')).
  { intros ->. now split. }
  split; [|split; [|split; [|split; [|split]]]].
  - intros data o H. apply createWorkout_cases in H.
    destruct H as [[H _]|[_ ->]]; [now apply Hsame|].
    now apply keys_after_append.
  - intros id U data o H. apply src_updateWorkout_cases in H.
    destruct H as [[H _]|[_ ->]]; [now apply Hsame|].
    apply keys_after_map; auto.
    intros r. now destruct (SrcData.owned id U r).
  - intros id U o H. apply src_deleteWorkout_cases in H.
    destruct H as [[H _]|[_ ->]]; [now apply Hsame|].
    now apply delete_keeps_keys.
  - intros id data o H.
    destruct (falsy (authUserId w)) eqn:Hout.
    + unfold Data.updateWorkout, bind, auth in H. rewrite Hout in H.
      injection H as _ <-. now split.
    + destruct (authUserId w) as [U|] eqn:Hauth; [|discriminate].
      assert (HU : U <> ""%string) by (intros ->; discriminate).
      apply (auth_updateWorkout_cases _ _ _ _ U _ Hauth HU) in H.
      destruct H as [[H _]|(e0 & _ & _ & _ & _ & _ & _ & _ & ->)];
        [now apply Hsame|].
      apply keys_after_map; auto.
      intros r. now destruct (Workout.id r =? id).
  - intros input o H. apply createWorkoutAction_cases in H.
    destruct H as [(_ & _ & ->)
                  |[(_ & _ & _ & ->)
                   |[(_ & _ & _ & Hdb & _)
                    |(_ & _ & t & _ & _ & -> & _)]]];
      try (now split); [now apply Hsame|].
    now apply keys_after_append.
  - intros data o H. apply updateWorkoutAction_cases in H.
    destruct H as [(e & _ & Hdb & _)
                  |(U & e0 & _ & _ & _ & _ & _ & _ & _ & ->)];
      [now apply Hsame|].
    apply keys_after_map; auto.
    intros r. now destruct (Workout.id r =? Actions.workoutId data).
Qed.

(** X20.  A workout that [createWorkoutAction] has created can be opened
    and is listed: for its owner, [getUserWorkoutById] with its id returns
    it, and [getUserWorkoutsByDate] for its start lists it, unless it
    starts in the last millisecond of a local day. *)
Theorem created_workout_is_served (w : World)
  (input : Actions.CreateWorkoutInput) (U : string) :
  schema input = [] ->
  authUserId w = Some U -> U <> ""%string -> varchar255 U = true ->
  faults w = [] -> seq_fresh (db w) ->
  exists (W : Workout.t) (w' : World) (x : Data.WorkoutWith),
    createWorkoutAction input w = (Returned (Actions.Success (Some W)), w')
    /\ Data.getUserWorkoutById (Workout.id W) w' = (Returned (Some x), w')
    /\ Data.w_row x = W
    /\ ((Workout.startedAt W + tz w) mod 86400000 <> 86399999 ->
        exists ws,
          Data.getUserWorkoutsByDate (Workout.startedAt W) w'
          = (Returned ws, w')
          /\ In W (map Data.w_row ws)).
Proof.
  intros Hs Hauth HU HfitU Hf Fr.
  destruct (Actions.createWorkoutAction Date_parse input w) as [o w'] eqn:H.
  pose proof H as Hc. apply createWorkoutAction_cases in Hc.
  destruct Hc as [(Hbad & _)
                 |[(_ & Hout & _)
                  |[(_ & _ & -> & _)
                   |(_ & _ & t & Ht & -> & Hdb & Hrv & Hco)]]].
  - contradiction.
  - rewrite Hauth, (signed_in U HU) in Hout. discriminate.
  - exfalso.
    destruct (proj1 (schema_passes_iff Date_parse input) Hs)
      as [Hname [t Ht]].
    unfold Actions.createWorkoutAction, bind in H.
    rewrite (parse_passes Date_parse input w Hs) in H. unfold auth in H.
    rewrite Hauth, (signed_in U HU), (signed_in_or_else U HU) in H.
    unfold try_catch, Actions.Date_of_string in H. rewrite Ht in H.
    unfold SrcData.createWorkout, bind in H.
    rewrite storage_up in H by exact Hf.
    unfold insert_workout, workout_row_fits in H; simpl in H.
    rewrite HfitU in H; simpl in H.
    assert (Hn : match Actions.name input with
                 | Some n => varchar255 n
                 | None => true
                 end = true).
    { destruct (Actions.name input) as [n|]; [|reflexivity].
      unfold varchar255. apply Nat.leb_le.
      specialize (Hname n eq_refl). lia. }
    rewrite Hn in H. simpl in H. discriminate.
  - rewrite Hauth, (signed_in_or_else U HU) in *.
    set (W := Workout.mk (workouts_id_seq (db w)) U (Actions.name input) t
                         None (clock w) (clock w)) in *.
    assert (Hw' : authUserId w' = Some U /\ faults w' = [] /\ tz w' = tz w).
    { unfold Actions.createWorkoutAction, bind in H.
      rewrite (parse_passes Date_parse input w Hs) in H. unfold auth in H.
      rewrite Hauth, (signed_in U HU), (signed_in_or_else U HU) in H.
      unfold try_catch, Actions.Date_of_string in H. rewrite Ht in H.
      unfold SrcData.createWorkout, bind in H.
      rewrite storage_up in H by exact Hf.
      destruct (insert_workout _ _ _ _ _) as [[rows d]|e]; simpl in H;
        injection H as _ <-; simpl; auto. }
    destruct Hw' as (Hauth' & Hf' & Htz).
    exists W, w'. eexists.
    split; [reflexivity|].
    assert (Hsel : filter (SrcData.owned (Workout.id W) U) (workouts (db w'))
                   = [W]).
    { rewrite Hdb. simpl. rewrite filter_app.
      rewrite (fresh_id_not_selected (db w) U Fr). simpl.
      unfold SrcData.owned; simpl.
      now rewrite Z.eqb_refl, String.eqb_refl. }
    split; [|split].
    + unfold Data.getUserWorkoutById, bind, auth. rewrite Hauth'.
      rewrite (signed_in U HU), (signed_in_or_else U HU).
      rewrite storage_up by exact Hf'. rewrite with_db_same.
      unfold select_workouts. rewrite Hsel. reflexivity.
    + reflexivity.
    + intros Hne. eexists.
      split; [apply (getUserWorkoutsByDate_run w' U _ Hauth' HU Hf')|].
      apply listed_on_day. split; [|split; [reflexivity|]].
      * rewrite Hdb. simpl. apply in_or_app. right. now left.
      * rewrite Htz. now apply window_of_own_start.
Qed.

End WritePaths.

Lemma createWorkoutAction_succeeds_witness :
  exists (t : Date) (W : Workout.t) (w' : World),
    Actions.createWorkoutAction Sample.Date_parse
      (Actions.mkCreateInput (Some "Pull Day"%string) "2025-01-10T08:00:00Z")
      (Sample.world (Some "u1"%string) [])
    = (Returned (Actions.Success (Some W)), w')
    /\ Workout.startedAt W = t
    /\ revalidated w' = ["/dashboard"%string].
Proof.
  destruct (createWorkoutAction_succeeds Sample.Date_parse
              (Sample.world (Some "u1"%string) [])
              (Actions.mkCreateInput (Some "Pull Day"%string)
                                     "2025-01-10T08:00:00Z")
              "u1"%string eq_refl eq_refl ltac:(discriminate)
              eq_refl eq_refl sample_fresh)
    as (t & W & w' & _ & Hrun & _ & _ & Hstart & _ & _ & _ & _ & _ & Hrv & _).
  exists t, W, w'. split; [exact Hrun|]. split; [exact Hstart | exact Hrv].
Defined.

Lemma updateWorkoutAction_succeeds_witness :
  exists (W' : Workout.t) (w' : World),
    Actions.updateWorkoutAction Sample.Date_parse
      (Actions.mkUpdateInput 1 (Some "Legs"%string) (Some ""%string)
                             (Some None))
      (Sample.world (Some "u1"%string) [])
    = (Returned (Actions.Success (Some W')), w')
    /\ Workout.name W' = Some "Legs"%string
    /\ Workout.startedAt W' = Sample.t0
    /\ Workout.completedAt W' = None.
Proof.
  destruct (updateWorkoutAction_succeeds Sample.Date_parse
              (Sample.world (Some "u1"%string) []) Sample.legDay
              (Actions.mkUpdateInput 1 (Some "Legs"%string) (Some ""%string)
                                     (Some None))
              sample_pk sample_fit eq_refl (or_introl eq_refl) eq_refl
              eq_refl ltac:(discriminate)
              ltac:(intros s H; injection H as <-; reflexivity)
              ltac:(intros s H Hs; injection H as <-; now elim Hs)
              ltac:(intros s H; discriminate H))
    as (W' & w' & Hrun & _ & _ & _ & _ & _ & _ & _ & Hname & Hstart & _
        & _ & Hclear & _).
  exists W', w'. split; [exact Hrun|]. split; [now apply Hname|].
  split; [apply Hstart; now right | now apply Hclear].
Defined.

Lemma updateWorkoutAction_hides_foreign_rows_witness :
  exists w' : World,
    Actions.updateWorkoutAction Sample.Date_parse
      (Actions.mkUpdateInput 3 (Some "Mine"%string) None None)
      (Sample.world (Some "u1"%string) [])
    = (Returned (Actions.Failure "Workout not found or unauthorized"), w')
    /\ db w' = Sample.db0.
Proof.
  destruct (updateWorkoutAction_hides_foreign_rows Sample.Date_parse
              (Sample.world (Some "u1"%string) []) "u1"%string
              (Actions.mkUpdateInput 3 (Some "Mine"%string) None None)
              eq_refl ltac:(discriminate) eq_refl
              ltac:(simpl; intros r [<-|[<-|[<-|[]]]] [H1 H2];
                    simpl in *; discriminate))
    as (w' & Hrun & Hdb & _).
  exists w'. split; [exact Hrun | exact Hdb].
Defined.

Lemma actions_write_and_revalidate_on_success_only_witness :
  db (snd (Actions.createWorkoutAction Sample.Date_parse
             (Actions.mkCreateInput None "2025-01-10T08:00:00Z")
             (Sample.world (Some "u1"%string) [Some Sample.down])))
  = Sample.db0
  /\ revalidated
       (snd (Actions.createWorkoutAction Sample.Date_parse
               (Actions.mkCreateInput None "2025-01-10T08:00:00Z")
               (Sample.world (Some "u1"%string) [Some Sample.down])))
     = [].
Proof.
  apply (proj1 (actions_write_and_revalidate_on_success_only
                  Sample.Date_parse
                  (Sample.world (Some "u1"%string) [Some Sample.down])
                  (snd (Actions.createWorkoutAction Sample.Date_parse
                          (Actions.mkCreateInput None "2025-01-10T08:00:00Z")
                          (Sample.world (Some "u1"%string)
                                        [Some Sample.down]))))
               (Actions.mkCreateInput None "2025-01-10T08:00:00Z")
               (Returned (Actions.Failure "Failed to create workout"))).
  reflexivity.
Defined.

Lemma updateWorkoutAction_unreadable_date_witness :
  exists w' : World,
    Actions.updateWorkoutAction Sample.Date_parse
      (Actions.mkUpdateInput 1 None (Some "soon"%string) None)
      (Sample.world (Some "u1"%string) [])
    = (Returned (Actions.Failure "Invalid time value"), w')
    /\ db w' = Sample.db0.
Proof.
  destruct (updateWorkoutAction_unreadable_date Sample.Date_parse
              (Sample.world (Some "u1"%string) []) Sample.legDay
              (Actions.mkUpdateInput 1 None (Some "soon"%string) None)
              "soon"%string eq_refl (or_introl eq_refl) eq_refl eq_refl
              ltac:(discriminate) (or_introl eq_refl)
              ltac:(discriminate) eq_refl)
    as (w' & Hrun & Hdb & _).
  exists w'. split; [exact Hrun | exact Hdb].
Defined.

Lemma writes_keep_the_primary_key_witness :
  pk_unique (db (snd (SrcData.deleteWorkout 1 "u1" (Sample.world None []))))
  /\ seq_fresh (db (snd (SrcData.deleteWorkout 1 "u1"
                           (Sample.world None [])))).
Proof.
  apply (proj1 (proj2 (proj2 (writes_keep_the_primary_key
                                Sample.Date_parse (Sample.world None [])
                                (snd (SrcData.deleteWorkout 1 "u1"
                                        (Sample.world None [])))
                                sample_pk sample_fresh)))
               1 "u1"%string
               (fst (SrcData.deleteWorkout 1 "u1" (Sample.world None [])))).
  reflexivity.
Defined.

Lemma created_workout_is_served_witness :
  exists (W : Workout.t) (w' : World) (x : Data.WorkoutWith),
    Actions.createWorkoutAction Sample.Date_parse
      (Actions.mkCreateInput None "2025-01-10T08:00:00Z")
      (Sample.world (Some "u1"%string) [])
    = (Returned (Actions.Success (Some W)), w')
    /\ Data.getUserWorkoutById (Workout.id W) w' = (Returned (Some x), w')
    /\ Data.w_row x = W.
Proof.
  destruct (created_workout_is_served Sample.Date_parse
              (Sample.world (Some "u1"%string) [])
              (Actions.mkCreateInput None "2025-01-10T08:00:00Z")
              "u1"%string eq_refl eq_refl ltac:(discriminate) eq_refl
              eq_refl sample_fresh)
    as (W & w' & x & Hrun & Hget & Hrow & _).
  exists W, w', x. split; [exact Hrun|]. split; [exact Hget | exact Hrow].
Defined.

(** ** The pages and the forms *)

Lemma getUserWorkoutById_run (w : World) (U : string) (id : Z) :
  authUserId w = Some U -> U <> ""%string -> faults w = [] ->
  Data.getUserWorkoutById id w
  = (Returned (first (map (Data.with_workoutExercises (db w))
                        (filter (SrcData.owned id U) (workouts (db w))))),
     w).
Proof.
  intros Hauth HU Hf.
  unfold Data.getUserWorkoutById, bind, auth. rewrite Hauth.
  rewrite (signed_in U HU), (signed_in_or_else U HU).
  rewrite storage_up by exact Hf. now rewrite with_db_same.
Qed.

Section PageProperties.

Variable parseInt : string -> option Z.
Variable Date_parse : string -> option Date.
Variable toISOString : Date -> string.

Local Abbreviation EditWorkoutPage := (Pages.EditWorkoutPage parseInt).
Local Abbreviation NewWorkoutPage_handleSubmit :=
  (Pages.NewWorkoutPage_handleSubmit Date_parse toISOString).
Local Abbreviation WorkoutEditForm_handleSubmit :=
  (Pages.WorkoutEditForm_handleSubmit Date_parse).

(** X21.  [EditWorkoutPage] opens a workout for its owner only.  A
    [workoutId] that is not a number ends in [notFound()] without asking
    for the identity or the store.  For a number, a signed-in user gets
    the edit form of the workout when it is theirs and [notFound()] when
    it is someone else's; without an identity the page throws
    "Unauthorized". *)
Theorem EditWorkoutPage_opens_own_workouts_only (w : World)
  (workoutId : string) :
  (parseInt workoutId = None ->
   EditWorkoutPage workoutId w = (Returned Pages.NotFound, w))
  /\ (forall n, parseInt workoutId = Some n ->
                falsy (authUserId w) = true ->
                EditWorkoutPage workoutId w
                = (Thrown (ErrorObj "Unauthorized"), w))
  /\ (forall n U W,
         parseInt workoutId = Some n ->
         authUserId w = Some U -> U <> ""%string ->
         pk_unique (db w) -> faults w = [] ->
         In W (workouts (db w)) -> Workout.id W = n ->
         (Workout.userId W = U ->
          exists x : Data.WorkoutWith,
            EditWorkoutPage workoutId w = (Returned (Pages.EditForm x), w)
            /\ Data.w_row x = W /\ nested_in_order (db w) x)
         /\ (Workout.userId W <> U ->
             EditWorkoutPage workoutId w = (Returned Pages.NotFound, w))).
Proof.
  split; [|split].
  - intros Hnan. unfold Pages.EditWorkoutPage. now rewrite Hnan.
  - intros n Hn Hout. unfold Pages.EditWorkoutPage. rewrite Hn.
    unfold bind, Data.getUserWorkoutById, bind, auth. now rewrite Hout.
  - intros n U W Hn Hauth HU PK Hf HW Hid.
    unfold Pages.EditWorkoutPage. rewrite Hn. unfold bind.
    rewrite (getUserWorkoutById_run w U n Hauth HU Hf). subst n. split.
    + intros <-. rewrite (select_own_row _ W PK HW). simpl.
      eexists. split; [reflexivity|]. split; [reflexivity|].
      apply with_workoutExercises_in_order.
    + intros Hne.
      rewrite filter_none; [reflexivity|].
      intros r Hr.
      destruct (SrcData.owned (Workout.id W) U r) eqn:E; auto.
      apply owned_spec in E. destruct E as [Eid Eu].
      assert (r = W) by (eapply pk_row_eq; eauto). subst r. contradiction.
Qed.

(** X22.  The new-workout form never shows the field messages of the
    schema.  After a submit either the action has succeeded, the form
    shows no error, asks for "/dashboard" and one workout has been added
    whose name is the name field (null when the field is blank); or the
    tables are unchanged, nothing is asked for and the form shows one of
    "An unexpected error occurred" (the action threw), "Unauthorized" or
    "Failed to create workout". *)
Theorem new_workout_form_outcomes (w w' : World) (name startedAt : string)
  (st : Pages.FormState) :
  NewWorkoutPage_handleSubmit name startedAt w = (st, w') ->
  (Pages.error st = None /\ Pages.pushed st = ["/dashboard"%string]
   /\ exists W : Workout.t,
        workouts (db w') = workouts (db w) ++ [W]
        /\ Workout.name W = Pages.blank_to_undefined name)
  \/ (Pages.pushed st = [] /\ db w' = db w
      /\ (Pages.error st = Some "An unexpected error occurred"%string
          \/ Pages.error st = Some "Unauthorized"%string
          \/ Pages.error st = Some "Failed to create workout"%string)).
Proof.
  unfold Pages.NewWorkoutPage_handleSubmit.
  destruct (Actions.createWorkoutAction Date_parse _ w) as [o w1] eqn:H.
  apply createWorkoutAction_cases in H.
  destruct H as [(_ & -> & ->)
                |[(_ & _ & -> & ->)
                 |[(_ & _ & -> & Hdb & _)
                  |(_ & _ & t & _ & -> & Hdb & _)]]];
    intros [= <- <-]; simpl.
  - right. repeat split. now left.
  - right. repeat split. right. now left.
  - right. split; [reflexivity|]. split; [exact Hdb|]. right. now right.
  - left. split; [reflexivity|]. split; [reflexivity|].
    eexists. rewrite Hdb. simpl. split; reflexivity.
Qed.

(** X23.  What the fields of the edit form do, for the owner of the
    workout when the store answers.  A blank name field keeps the stored
    name (the form cannot clear a name) and any other name is stored; a
    blank start keeps the start; a blank completion field clears the
    completion, so saving the form of a completed workout with that field
    emptied puts it back in progress.  The form then shows no error and
    asks for "/dashboard". *)
Theorem edit_form_fields (w : World) (W : Workout.t)
  (name startedAt completedAt : string) :
  pk_unique (db w) -> rows_fit (db w) -> faults w = [] ->
  In W (workouts (db w)) ->
  authUserId w = Some (Workout.userId W) -> Workout.userId W <> ""%string ->
  varchar255 name = true ->
  (startedAt = ""%string \/ Date_parse startedAt <> None) ->
  (completedAt = ""%string \/ Date_parse completedAt <> None) ->
  exists (W' : Workout.t) (w' : World),
    WorkoutEditForm_handleSubmit (Workout.id W) name startedAt completedAt w
    = (Pages.mkForm None ["/dashboard"%string] [], w')
    /\ In W' (workouts (db w'))
    /\ Workout.id W' = Workout.id W
    /\ (name = ""%string -> Workout.name W' = Workout.name W)
    /\ (name <> ""%string -> Workout.name W' = Some name)
    /\ (startedAt = ""%string ->
        Workout.startedAt W' = Workout.startedAt W)
    /\ (forall t, startedAt <> ""%string -> Date_parse startedAt = Some t ->
                  Workout.startedAt W' = t)
    /\ (completedAt = ""%string -> Workout.completedAt W' = None)
    /\ (forall t, completedAt <> ""%string ->
                  Date_parse completedAt = Some t ->
                  Workout.completedAt W' = Some t).
Proof.
  intros PK Fit Hf HW Hauth HU Hname Hst Hco.
  set (input := Actions.mkUpdateInput (Workout.id W)
                  (Pages.blank_to_undefined name)
                  (Pages.blank_to_undefined startedAt)
                  (if String.eqb completedAt "" then Some None
                   else Some (Some completedAt))).
  assert (Henc : Data.encodable (Actions.updateData Date_parse input) = true).
  { unfold Data.encodable, Actions.updateData, Actions.Date_of_string,
      input, Pages.blank_to_undefined; simpl.
    apply andb_true_iff. split.
    - destruct (String.eqb startedAt "") eqn:E; [reflexivity|]. rewrite E.
      destruct Hst as [->|Hp]; [discriminate|].
      now destruct (Date_parse startedAt).
    - destruct (String.eqb completedAt "") eqn:E; [reflexivity|]. rewrite E.
      destruct Hco as [->|Hp]; [discriminate|].
      now destruct (Date_parse completedAt). }
  assert (Hn : name_fits (Data.u_name (Actions.updateData Date_parse input))).
  { unfold name_fits, input, Pages.blank_to_undefined; simpl.
    intros s. destruct (String.eqb name ""); [discriminate|].
    now intros [= <-]. }
  pose proof (auth_updateWorkout_run w W (Actions.updateData Date_parse input)
                PK Fit Hf HW Hauth HU Hn Henc) as Hrun.
  unfold Pages.WorkoutEditForm_handleSubmit. fold input.
  rewrite updateWorkoutAction_unfold. unfold try_catch, bind.
  replace (Actions.workoutId input) with (Workout.id W) by reflexivity.
  rewrite Hrun. unfold revalidatePath, ret.
  eexists. eexists. split; [reflexivity|]. simpl. split.
  { apply in_map_iff. exists W. split; [|exact HW].
    now rewrite Z.eqb_refl. }
  subst input. unfold Actions.updateData, Actions.Date_of_string,
    Pages.blank_to_undefined; simpl.
  repeat split.
  - intros ->. reflexivity.
  - intros Hne. apply String.eqb_neq in Hne. now rewrite Hne.
  - intros ->. reflexivity.
  - intros t Hne Ht. apply String.eqb_neq in Hne. now rewrite !Hne, Ht.
  - intros ->. reflexivity.
  - intros t Hne Ht. apply String.eqb_neq in Hne. now rewrite !Hne, Ht.
Qed.

End PageProperties.

Lemma EditWorkoutPage_opens_own_workouts_only_witness :
  Pages.EditWorkoutPage SampleBuiltins.parseInt "3"
                        (Sample.world (Some "u1"%string) [])
  = (Returned Pages.NotFound, Sample.world (Some "u1"%string) []).
Proof.
  apply (proj2 (proj2 (proj2 (EditWorkoutPage_opens_own_workouts_only
                                SampleBuiltins.parseInt
                                (Sample.world (Some "u1"%string) [])
                                "3"%string))
                      3 "u1"%string Sample.other eq_refl eq_refl
                      ltac:(discriminate) sample_pk eq_refl
                      (or_intror (or_intror (or_introl eq_refl)))
                      eq_refl)).
  unfold Sample.other; simpl. discriminate.
Defined.

Lemma new_workout_form_outcomes_witness :
  let run :=
    Pages.NewWorkoutPage_handleSubmit
      SampleBuiltins.Date_parse SampleBuiltins.toISOString
      ""%string "2025-01-10T09:30"%string
      (Sample.world (Some "u1"%string) []) in
  (Pages.error (fst run) = None
   /\ Pages.pushed (fst run) = ["/dashboard"%string]
   /\ exists W : Workout.t,
        workouts (db (snd run)) = workouts Sample.db0 ++ [W]
        /\ Workout.name W = Pages.blank_to_undefined ""%string)
  \/ (Pages.pushed (fst run) = [] /\ db (snd run) = Sample.db0
      /\ (Pages.error (fst run)
          = Some "An unexpected error occurred"%string
          \/ Pages.error (fst run) = Some "Unauthorized"%string
          \/ Pages.error (fst run)
             = Some "Failed to create workout"%string)).
Proof.
  intros run.
  apply (new_workout_form_outcomes
           SampleBuiltins.Date_parse SampleBuiltins.toISOString
           (Sample.world (Some "u1"%string) []) (snd run)
           ""%string "2025-01-10T09:30"%string (fst run)).
  reflexivity.
Defined.

Lemma edit_form_fields_witness :
  exists (W' : Workout.t) (w' : World),
    Pages.WorkoutEditForm_handleSubmit SampleBuiltins.Date_parse
      1 ""%string ""%string ""%string (Sample.world (Some "u1"%string) [])
    = (Pages.mkForm None ["/dashboard"%string] [], w')
    /\ Workout.name W' = Some "Leg Day"%string
    /\ Workout.completedAt W' = None.
Proof.
  destruct (edit_form_fields SampleBuiltins.Date_parse
              (Sample.world (Some "u1"%string) []) Sample.legDay
              ""%string ""%string ""%string
              sample_pk sample_fit eq_refl (or_introl eq_refl) eq_refl
              ltac:(discriminate) eq_refl
              (or_introl eq_refl) (or_introl eq_refl))
    as (W' & w' & Hrun & _ & _ & Hname & _ & _ & _ & Hclear & _).
  exists W', w'. split; [exact Hrun|].
  split; [now apply Hname | now apply Hclear].
Defined.

(** ** Reading back an update *)

(** X24.  An update is read back: after [updateWorkout(id, userId, data)]
    has returned the updated record, [getWorkout] with the same id and
    owner returns that record. *)
Theorem updated_workout_is_read_back (w : World) (W : Workout.t)
  (data : SrcData.UpdateWorkoutData) :
  pk_unique (db w) -> seq_fresh (db w) -> rows_fit (db w) ->
  faults w = [] -> In W (workouts (db w)) ->
  name_fits (SrcData.u_name data) ->
  exists (W' : Workout.t) (w' : World),
    SrcData.updateWorkout (Workout.id W) (Workout.userId W) data w
    = (Returned (Some W'), w')
    /\ SrcData.getWorkout (Workout.id W) (Workout.userId W) w'
       = (Returned (Some W'), w').
Proof.
  intros PK Fr Fit Hf HW Hn.
  unfold SrcData.updateWorkout, bind, new_Date.
  rewrite storage_up by exact Hf.
  unfold update_workouts.
  rewrite (select_own_row _ W PK HW). simpl.
  assert (HfitW : workout_row_fits W = true).
  { unfold rows_fit in Fit. rewrite Forall_forall in Fit. now apply Fit. }
  rewrite (apply_update_fits data (clock w) W HfitW Hn). simpl.
  eexists. eexists. split; [reflexivity|].
  set (f := fun r => if SrcData.owned (Workout.id W) (Workout.userId W) r
                     then SrcData.apply_update data (clock w) r else r).
  set (W' := SrcData.apply_update data (clock w) W).
  assert (HfW : f W = W').
  { unfold f. replace (SrcData.owned _ _ W) with true; [reflexivity|].
    symmetry. now apply owned_spec. }
  assert (Hkeys : pk_unique (mkDb (exercises (db w)) (map f (workouts (db w)))
                               (workoutExercises (db w)) (sets (db w))
                               (workouts_id_seq (db w)))).
  { apply keys_after_map; auto.
    intros r. unfold f. now destruct (SrcData.owned _ _ r). }
  assert (HW' : In W' (map f (workouts (db w)))).
  { rewrite <- HfW. now apply in_map. }
  unfold SrcData.getWorkout, bind.
  rewrite storage_up by exact Hf. simpl.
  unfold select_workouts; simpl.
  pose proof (select_own_row (map f (workouts (db w))) W' Hkeys HW') as Hsel.
  change (Workout.id W') with (Workout.id W) in Hsel.
  change (Workout.userId W') with (Workout.userId W) in Hsel.
  rewrite Hsel. simpl. unfold ret, with_db; simpl. reflexivity.
Qed.

Lemma updated_workout_is_read_back_witness :
  exists (W' : Workout.t) (w' : World),
    SrcData.updateWorkout 1 "u1"
      (SrcData.mkUpdate (Some "Legs"%string) None) (Sample.world None [])
    = (Returned (Some W'), w')
    /\ SrcData.getWorkout 1 "u1" w' = (Returned (Some W'), w').
Proof.
  exact (updated_workout_is_read_back
           (Sample.world None []) Sample.legDay
           (SrcData.mkUpdate (Some "Legs"%string) None)
           sample_pk sample_fresh sample_fit eq_refl (or_introl eq_refl)
           ltac:(intros s H; injection H as <-; reflexivity)).
Defined.
